(** * The social platform of agent-epic: a shallow embedding

    This development embeds [src/social_platform.py] in Rocq and proves
    properties of its five components: [UserManager], [ConnectionManager],
    [RoomManager], [MessageManager], [RealtimeManager], and of the
    [SocialPlatform] facade that wires them together.

    Conventions of the embedding:
    - a Python [dict] is a [gmap], a Python [set] a [gset], a Python
      [list] a [list]; a set is iterated in the order of [elements];
    - the methods mutate the manager they belong to, draw identifiers
      from [uuid.uuid4] and timestamps from [time.time], invoke the
      registered callbacks and may raise: they are computations in the
      monad [M] over a state made of the manager and of the world [W] it
      runs in; the world supplies [uuid4] and [time_time] and is what the
      callbacks act upon;
    - a callback is a function on the world: what it prints is dropped,
      and an exception it raises is caught by the caller, so that only
      its effect on the world remains;
    - the coroutines never suspend on anything but each other, so that
      [await f(x)] is a plain call. *)

From stdpp Require Import gmap strings list fin_maps pretty.
From Stdlib Require Import ZArith QArith.

(** ** Values *)

(** A timestamp is what [time.time()] returns.  No method does arithmetic
    on timestamps: they are stored, and compared in [get_room_messages]. *)
Definition Time := Z.

(** The values of type [Any] that the dictionaries carry. *)
#[warnings="-register-all"]
Inductive Any :=
| PyNone
| PyBool (b : bool)
| PyInt (z : Z)
| PyStr (s : string)
| PyList (l : list Any)
| PyDict (d : list (string * Any)).

Inductive UserStatus := ONLINE | AWAY | BUSY | INVISIBLE | OFFLINE.

Inductive ConnectionType := FRIEND | FOLLOWER | FOLLOWING | BLOCKED | MUTUAL.

Inductive RoomType := PUBLIC | PRIVATE | INVITE_ONLY | TEMPORARY.

Inductive PrivacyLevel := PrivacyPublic | PrivacyFriends | PrivacyPrivate | PrivacyCustom.

#[global] Instance UserStatus_eq_dec : EqDecision UserStatus.
Proof. solve_decision. Defined.

#[global] Instance ConnectionType_eq_dec : EqDecision ConnectionType.
Proof. solve_decision. Defined.

#[global] Instance RoomType_eq_dec : EqDecision RoomType.
Proof. solve_decision. Defined.

(** [UserStatus.value], [RoomType.value] and the constructor [RoomType(s)],
    which raises [ValueError] on a string that names no member. *)
Definition UserStatus_value (s : UserStatus) : string :=
  match s with
  | ONLINE => "online" | AWAY => "away" | BUSY => "busy"
  | INVISIBLE => "invisible" | OFFLINE => "offline"
  end.

Definition RoomType_value (t : RoomType) : string :=
  match t with
  | PUBLIC => "public" | PRIVATE => "private"
  | INVITE_ONLY => "invite_only" | TEMPORARY => "temporary"
  end.

Definition RoomType_of_value (s : string) : option RoomType :=
  if decide (s = "public") then Some PUBLIC
  else if decide (s = "private") then Some PRIVATE
  else if decide (s = "invite_only") then Some INVITE_ONLY
  else if decide (s = "temporary") then Some TEMPORARY
  else None.

(** ** Exceptions and the monad of methods *)

Inductive Exn :=
| KeyError (key : string)
| ValueError (value : string).

(** A call returns a value, raises, or exceeds the call depth it was
    given ([OutOfFuel], which only the mutually recursive [leave_room] and
    [delete_room] can produce).  The state is kept when a call raises:
    Python does not undo the mutations done before the exception. *)
Inductive Outcome (S A : Type) :=
| Ok (a : A) (s : S)
| Raise (e : Exn) (s : S)
| OutOfFuel.

Arguments Ok {S A} a s.
Arguments Raise {S A} e s.
Arguments OutOfFuel {S A}.

Definition M (S A : Type) : Type := S -> Outcome S A.

Definition ret {S A} (a : A) : M S A := fun s => Ok a s.

Definition bind {S A B} (m : M S A) (k : A -> M S B) : M S B :=
  fun s =>
    match m s with
    | Ok a s' => k a s'
    | Raise e s' => Raise e s'
    | OutOfFuel => OutOfFuel
    end.

Definition raise {S A} (e : Exn) : M S A := fun s => Raise e s.

Notation "'let*' x ':=' m 'in' k" := (bind m (fun x => k))
  (at level 10, x pattern, m at level 100, k at level 200).
Notation "m ';;' k" := (bind m (fun _ => k))
  (at level 100, k at level 200, right associativity).

(** [for x in l: body x] *)
Fixpoint for_each {S A} (l : list A) (body : A -> M S unit) : M S unit :=
  match l with
  | [] => ret tt
  | x :: l' => body x ;; for_each l' body
  end.

(** ** The world a manager runs in *)

Class Runtime (W : Type) := {
  uuid4 : W -> string * W;       (* str(uuid.uuid4()) *)
  time_time : W -> Time * W      (* time.time() *)
}.

Section Managed.
Context {Mgr W : Type} `{Runtime W}.

Definition self : M (Mgr * W) Mgr := fun s => Ok (fst s) s.

Definition set_self (m : Mgr) : M (Mgr * W) unit := fun s => Ok tt (m, snd s).

Definition update_self (f : Mgr -> Mgr) : M (Mgr * W) unit :=
  fun s => Ok tt (f (fst s), snd s).

Definition new_uuid : M (Mgr * W) string :=
  fun s => let '(u, w) := uuid4 (snd s) in Ok u (fst s, w).

Definition now : M (Mgr * W) Time :=
  fun s => let '(t, w) := time_time (snd s) in Ok t (fst s, w).

(** [try: await callback(...) except Exception: print(...)] *)
Definition invoke (cb : W -> W) : M (Mgr * W) unit :=
  fun s => Ok tt (fst s, cb (snd s)).
End Managed.


(** ** User profiles and sessions *)

Module UserProfile.
Record t := {
  user_id : string;
  username : string;
  display_name : string;
  avatar_url : option string;
  bio : option string;
  status : UserStatus;
  preferences : gmap string Any;
  privacy_settings : gmap string PrivacyLevel;
  interests : list string;
  achievements : list (gmap string Any);
  created_at : Time;
  last_active : Time;
  hashed_password : option string;
  metadata : gmap string Any
}.

(** [user.status = v] and [user.last_active = v] *)
Definition with_status (v : UserStatus) (u : t) : t :=
  {| user_id := user_id u; username := username u; display_name := display_name u;
     avatar_url := avatar_url u; bio := bio u; status := v;
     preferences := preferences u; privacy_settings := privacy_settings u; interests := interests u;
     achievements := achievements u; created_at := created_at u; last_active := last_active u;
     hashed_password := hashed_password u; metadata := metadata u |}.

Definition with_last_active (v : Time) (u : t) : t :=
  {| user_id := user_id u; username := username u; display_name := display_name u;
     avatar_url := avatar_url u; bio := bio u; status := status u;
     preferences := preferences u; privacy_settings := privacy_settings u; interests := interests u;
     achievements := achievements u; created_at := created_at u; last_active := v;
     hashed_password := hashed_password u; metadata := metadata u |}.

(** An item of the [updates] dictionary of [update_user]: the name of an
    attribute of the profile with its new value, or any other key. *)
Inductive update :=
| SetUserId (v : string)
| SetUsername (v : string)
| SetDisplayName (v : string)
| SetAvatarUrl (v : option string)
| SetBio (v : option string)
| SetStatus (v : UserStatus)
| SetPreferences (v : gmap string Any)
| SetPrivacySettings (v : gmap string PrivacyLevel)
| SetInterests (v : list string)
| SetAchievements (v : list (gmap string Any))
| SetCreatedAt (v : Time)
| SetLastActive (v : Time)
| SetHashedPassword (v : option string)
| SetMetadata (v : gmap string Any)
| SetUnknown (key : string) (v : Any).

(** [setattr(user, field, value)] under the guard of [update_user]:
    [hasattr(user, field) and field not in ["user_id", "created_at"]]. *)
Definition setattr (u : t) (upd : update) : t :=
  match upd with
  | SetUserId _ | SetCreatedAt _ | SetUnknown _ _ => u
  | SetStatus v => with_status v u
  | SetLastActive v => with_last_active v u
  | SetUsername v =>
    {| user_id := user_id u; username := v; display_name := display_name u;
     avatar_url := avatar_url u; bio := bio u; status := status u;
     preferences := preferences u; privacy_settings := privacy_settings u; interests := interests u;
     achievements := achievements u; created_at := created_at u; last_active := last_active u;
     hashed_password := hashed_password u; metadata := metadata u |}
  | SetDisplayName v =>
    {| user_id := user_id u; username := username u; display_name := v;
     avatar_url := avatar_url u; bio := bio u; status := status u;
     preferences := preferences u; privacy_settings := privacy_settings u; interests := interests u;
     achievements := achievements u; created_at := created_at u; last_active := last_active u;
     hashed_password := hashed_password u; metadata := metadata u |}
  | SetAvatarUrl v =>
    {| user_id := user_id u; username := username u; display_name := display_name u;
     avatar_url := v; bio := bio u; status := status u;
     preferences := preferences u; privacy_settings := privacy_settings u; interests := interests u;
     achievements := achievements u; created_at := created_at u; last_active := last_active u;
     hashed_password := hashed_password u; metadata := metadata u |}
  | SetBio v =>
    {| user_id := user_id u; username := username u; display_name := display_name u;
     avatar_url := avatar_url u; bio := v; status := status u;
     preferences := preferences u; privacy_settings := privacy_settings u; interests := interests u;
     achievements := achievements u; created_at := created_at u; last_active := last_active u;
     hashed_password := hashed_password u; metadata := metadata u |}
  | SetPreferences v =>
    {| user_id := user_id u; username := username u; display_name := display_name u;
     avatar_url := avatar_url u; bio := bio u; status := status u;
     preferences := v; privacy_settings := privacy_settings u; interests := interests u;
     achievements := achievements u; created_at := created_at u; last_active := last_active u;
     hashed_password := hashed_password u; metadata := metadata u |}
  | SetPrivacySettings v =>
    {| user_id := user_id u; username := username u; display_name := display_name u;
     avatar_url := avatar_url u; bio := bio u; status := status u;
     preferences := preferences u; privacy_settings := v; interests := interests u;
     achievements := achievements u; created_at := created_at u; last_active := last_active u;
     hashed_password := hashed_password u; metadata := metadata u |}
  | SetInterests v =>
    {| user_id := user_id u; username := username u; display_name := display_name u;
     avatar_url := avatar_url u; bio := bio u; status := status u;
     preferences := preferences u; privacy_settings := privacy_settings u; interests := v;
     achievements := achievements u; created_at := created_at u; last_active := last_active u;
     hashed_password := hashed_password u; metadata := metadata u |}
  | SetAchievements v =>
    {| user_id := user_id u; username := username u; display_name := display_name u;
     avatar_url := avatar_url u; bio := bio u; status := status u;
     preferences := preferences u; privacy_settings := privacy_settings u; interests := interests u;
     achievements := v; created_at := created_at u; last_active := last_active u;
     hashed_password := hashed_password u; metadata := metadata u |}
  | SetHashedPassword v =>
    {| user_id := user_id u; username := username u; display_name := display_name u;
     avatar_url := avatar_url u; bio := bio u; status := status u;
     preferences := preferences u; privacy_settings := privacy_settings u; interests := interests u;
     achievements := achievements u; created_at := created_at u; last_active := last_active u;
     hashed_password := v; metadata := metadata u |}
  | SetMetadata v =>
    {| user_id := user_id u; username := username u; display_name := display_name u;
     avatar_url := avatar_url u; bio := bio u; status := status u;
     preferences := preferences u; privacy_settings := privacy_settings u; interests := interests u;
     achievements := achievements u; created_at := created_at u; last_active := last_active u;
     hashed_password := hashed_password u; metadata := v |}
  end.
End UserProfile.

(** The entries of [active_sessions]: dictionaries with these four keys. *)
Module Session.
Record t := {
  user_id : string;
  created_at : Time;
  last_activity : Time;
  metadata : gmap string Any
}.
End Session.

(** The [user_data] dictionary of [create_user]: a key is present or not. *)
Module UserData.
Record t := {
  user_id : option string;
  username : option string;
  display_name : option string;
  avatar_url : option string;
  bio : option string;
  preferences : option (gmap string Any);
  privacy_settings : option (gmap string PrivacyLevel);
  interests : option (list string);
  metadata : option (gmap string Any)
}.
End UserData.

(** The [default_privacy] dictionary of [create_user]. *)
Definition default_privacy : gmap string PrivacyLevel :=
  <["profile" := PrivacyPublic]>
    (<["status" := PrivacyFriends]>
      (<["activity" := PrivacyFriends]>
        (<["connections" := PrivacyPrivate]> ∅))).

(** ** UserManager *)

Module UserManager.
Section UserManager.
Context {W : Type} `{Runtime W}.

Record t := {
  users : gmap string UserProfile.t;
  active_sessions : gmap string Session.t;
  presence_callbacks : list (string -> UserStatus -> W -> W)
}.

(** [UserManager()] *)
Definition init : t :=
  {| users := ∅; active_sessions := ∅; presence_callbacks := [] |}.

Definition with_users (f : gmap string UserProfile.t -> gmap string UserProfile.t)
    (um : t) : t :=
  {| users := f (users um); active_sessions := active_sessions um;
     presence_callbacks := presence_callbacks um |}.

Definition with_sessions (f : gmap string Session.t -> gmap string Session.t)
    (um : t) : t :=
  {| users := users um; active_sessions := f (active_sessions um);
     presence_callbacks := presence_callbacks um |}.

Definition add_presence_callback (cb : string -> UserStatus -> W -> W) (um : t) : t :=
  {| users := users um; active_sessions := active_sessions um;
     presence_callbacks := presence_callbacks um ++ [cb] |}.

Definition _notify_presence_change (uid : string) : M (t * W) unit :=
  let* um := self in
  match users um !! uid with
  | None => ret tt
  | Some user =>
    for_each (presence_callbacks um)
      (fun cb => invoke (cb uid (UserProfile.status user)))
  end.

Definition get_user (uid : string) : M (t * W) (option UserProfile.t) :=
  let* um := self in ret (users um !! uid).

Definition set_user_status (uid : string) (st : UserStatus) : M (t * W) bool :=
  let* um := self in
  match users um !! uid with
  | None => ret false
  | Some user =>
    let old_status := UserProfile.status user in
    let user := UserProfile.with_status st user in
    update_self (with_users (insert uid user)) ;;
    let* t := now in
    update_self (with_users (insert uid (UserProfile.with_last_active t user))) ;;
    (if decide (old_status = st) then ret tt else _notify_presence_change uid) ;;
    ret true
  end.

Definition create_session (uid : string) : M (t * W) string :=
  let* session_id := new_uuid in
  let* t1 := now in
  let* t2 := now in
  update_self (with_sessions
    (insert session_id
       {| Session.user_id := uid; Session.created_at := t1;
          Session.last_activity := t2; Session.metadata := ∅ |})) ;;
  set_user_status uid ONLINE ;;
  ret session_id.

(** [[s for s in self.active_sessions.values() if s["user_id"] == user_id]] *)
Definition sessions_of (uid : string) (sessions : gmap string Session.t)
    : list Session.t :=
  filter (fun s => Session.user_id s = uid) (snd <$> map_to_list sessions).

Definition end_session (session_id : string) : M (t * W) bool :=
  let* um := self in
  match active_sessions um !! session_id with
  | None => ret false
  | Some session =>
    let uid := Session.user_id session in
    update_self (with_sessions (delete session_id)) ;;
    let* um := self in
    match sessions_of uid (active_sessions um) with
    | [] => set_user_status uid OFFLINE ;; ret true
    | _ :: _ => ret true
    end
  end.

(** The default of [user_data.get("user_id", str(uuid.uuid4()))] is
    evaluated whether or not the key is present.  The profile returned
    is the object stored in [users], as [create_session] left it. *)
Definition create_user (user_data : UserData.t) : M (t * W) UserProfile.t :=
  let* fresh := new_uuid in
  let uid := default fresh (UserData.user_id user_data) in
  match UserData.username user_data with
  | None => raise (KeyError "username")
  | Some name =>
    let* t1 := now in
    let* t2 := now in
    let user_profile :=
      {| UserProfile.user_id := uid;
         UserProfile.username := name;
         UserProfile.display_name := default name (UserData.display_name user_data);
         UserProfile.avatar_url := UserData.avatar_url user_data;
         UserProfile.bio := UserData.bio user_data;
         UserProfile.status := ONLINE;
         UserProfile.preferences := default ∅ (UserData.preferences user_data);
         UserProfile.privacy_settings :=
           default default_privacy (UserData.privacy_settings user_data);
         UserProfile.interests := default [] (UserData.interests user_data);
         UserProfile.achievements := [];
         UserProfile.created_at := t1;
         UserProfile.last_active := t2;
         UserProfile.hashed_password := None;
         UserProfile.metadata := default ∅ (UserData.metadata user_data) |} in
    update_self (with_users (insert uid user_profile)) ;;
    create_session uid ;;
    let* um := self in
    ret (default user_profile (users um !! uid))
  end.

Definition update_user (uid : string) (updates : list UserProfile.update)
    : M (t * W) (option UserProfile.t) :=
  let* um := self in
  match users um !! uid with
  | None => ret None
  | Some _ =>
    for_each updates (fun upd =>
      update_self (with_users (alter (fun u => UserProfile.setattr u upd) uid))) ;;
    let* t := now in
    update_self (with_users (alter (UserProfile.with_last_active t) uid)) ;;
    _notify_presence_change uid ;;
    let* um := self in
    ret (users um !! uid)
  end.
End UserManager.
Arguments t W : clear implicits.
End UserManager.

(** ** Connections *)

Module SocialConnection.
Record t := {
  connection_id : string;
  user_id : string;
  target_user_id : string;
  connection_type : ConnectionType;
  created_at : Time;
  strength : Q;
  mutual : bool;
  metadata : gmap string Any
}.

(** [connection.mutual = v] *)
Definition with_mutual (v : bool) (c : t) : t :=
  {| SocialConnection.connection_id := SocialConnection.connection_id c; SocialConnection.user_id := SocialConnection.user_id c;
     SocialConnection.target_user_id := SocialConnection.target_user_id c; SocialConnection.connection_type := SocialConnection.connection_type c;
     SocialConnection.created_at := SocialConnection.created_at c; SocialConnection.strength := SocialConnection.strength c;
     SocialConnection.mutual := v; SocialConnection.metadata := SocialConnection.metadata c |}.
End SocialConnection.

Module ConnectionManager.
Section ConnectionManager.
Context {W : Type} `{Runtime W}.

Record t := {
  connections : gmap string SocialConnection.t;
  user_connections : gmap string (gset string)   (* user_id -> connection_ids *)
}.

(** [ConnectionManager()] *)
Definition init : t := {| connections := ∅; user_connections := ∅ |}.

Definition with_connections
    (f : gmap string SocialConnection.t -> gmap string SocialConnection.t)
    (cm : t) : t :=
  {| connections := f (connections cm); user_connections := user_connections cm |}.

Definition with_user_connections
    (f : gmap string (gset string) -> gmap string (gset string)) (cm : t) : t :=
  {| connections := connections cm; user_connections := f (user_connections cm) |}.

(** The loop of [get_connection]: the first identifier of [ids] that
    names a stored connection towards [target], with that connection. *)
Fixpoint first_towards (conns : gmap string SocialConnection.t) (target : string)
    (ids : list string) : option (string * SocialConnection.t) :=
  match ids with
  | [] => None
  | cid :: rest =>
    match conns !! cid with
    | Some c =>
      if decide (SocialConnection.target_user_id c = target) then Some (cid, c)
      else first_towards conns target rest
    | None => first_towards conns target rest
    end
  end.

(** [get_connection] returns an object that the dictionary
    [connections] holds: [get_connection_entry] names the key it is
    stored under, so that an assignment to one of its attributes is an
    update of that entry. *)
Definition get_connection_entry (cm : t) (uid target : string)
    : option (string * SocialConnection.t) :=
  first_towards (connections cm) target
    (elements (default ∅ (user_connections cm !! uid))).

Definition get_connection (uid target : string)
    : M (t * W) (option SocialConnection.t) :=
  let* cm := self in ret (snd <$> get_connection_entry cm uid target).

Definition create_connection (uid target : string) (ty : ConnectionType)
    : M (t * W) SocialConnection.t :=
  let* connection_id := new_uuid in
  let* created := now in
  let connection :=
    {| SocialConnection.connection_id := connection_id;
       SocialConnection.user_id := uid;
       SocialConnection.target_user_id := target;
       SocialConnection.connection_type := ty;
       SocialConnection.created_at := created;
       SocialConnection.strength := (1 # 2)%Q;
       SocialConnection.mutual := false;
       SocialConnection.metadata := ∅ |} in
  (* Check for mutual connection *)
  let* cm := self in
  let* connection :=
    match get_connection_entry cm target uid with
    | Some (rid, reverse_connection) =>
      if decide (SocialConnection.connection_type reverse_connection = ty) then
        update_self (with_connections (alter (SocialConnection.with_mutual true) rid)) ;;
        ret (SocialConnection.with_mutual true connection)
      else ret connection
    | None => ret connection
    end in
  update_self (with_connections (insert connection_id connection)) ;;
  (* Update user connections index *)
  let* cm := self in
  (match user_connections cm !! uid with
   | None => update_self (with_user_connections (insert uid ∅))
   | Some _ => ret tt
   end) ;;
  update_self (with_user_connections (alter (fun ids => {[connection_id]} ∪ ids) uid)) ;;
  ret connection.

(** [get_user_connections], with its optional filter on the type *)
Definition get_user_connections (uid : string) (ty : option ConnectionType)
    : M (t * W) (list SocialConnection.t) :=
  let* cm := self in
  ret (omap (fun cid =>
               match connections cm !! cid with
               | Some c =>
                 match ty with
                 | None => Some c
                 | Some ty =>
                   if decide (SocialConnection.connection_type c = ty) then Some c
                   else None
                 end
               | None => None
               end)
            (elements (default ∅ (user_connections cm !! uid)))).

Definition remove_connection (connection_id : string) : M (t * W) bool :=
  let* cm := self in
  match connections cm !! connection_id with
  | None => ret false
  | Some connection =>
    let uid := SocialConnection.user_id connection in
    (* Remove from connections *)
    update_self (with_connections (delete connection_id)) ;;
    (* Update user connections index *)
    update_self (with_user_connections (alter (fun ids => ids ∖ {[connection_id]}) uid)) ;;
    ret true
  end.

(** [update_connection_strength]: the strength is a float; the finite
    floats are rationals and [min] and [max] compare them exactly.
    [min(a, b)] is [a] unless [b < a], [max(a, b)] is [a] unless [b > a]. *)
Definition py_min (a b : Q) : Q := if Qlt_le_dec b a then b else a.

Definition py_max (a b : Q) : Q := if Qlt_le_dec a b then b else a.

Definition with_strength (v : Q) (c : SocialConnection.t) : SocialConnection.t :=
  {| SocialConnection.connection_id := SocialConnection.connection_id c;
     SocialConnection.user_id := SocialConnection.user_id c;
     SocialConnection.target_user_id := SocialConnection.target_user_id c;
     SocialConnection.connection_type := SocialConnection.connection_type c;
     SocialConnection.created_at := SocialConnection.created_at c;
     SocialConnection.strength := v;
     SocialConnection.mutual := SocialConnection.mutual c;
     SocialConnection.metadata := SocialConnection.metadata c |}.

Definition update_connection_strength (connection_id : string) (strength : Q)
    : M (t * W) bool :=
  let* cm := self in
  match connections cm !! connection_id with
  | None => ret false
  | Some connection =>
    (* Clamp strength between 0.0 and 1.0 *)
    let strength := py_max 0 (py_min 1 strength) in
    update_self (with_connections
      (insert connection_id (with_strength strength connection))) ;;
    ret true
  end.

(** [{conn.target_user_id for conn in connections}] *)
Definition targets (l : list SocialConnection.t) : gset string :=
  list_to_set (SocialConnection.target_user_id <$> l).

Definition get_mutual_connections (uid target : string) : M (t * W) (list string) :=
  let* user_connections := get_user_connections uid (Some FRIEND) in
  let* target_connections := get_user_connections target (Some FRIEND) in
  let user_friends := targets user_connections in
  let target_friends := targets target_connections in
  ret (elements (user_friends ∩ target_friends)).

(** [l[:limit]]: a negative limit counts from the end. *)
Definition slice_to {A} (limit : Z) (l : list A) : list A :=
  if decide (0 ≤ limit)%Z then take (Z.to_nat limit) l
  else take (Z.to_nat (Z.of_nat (length l) + limit)) l.

(** [for x in l: acc = body acc x], for a body that calls methods *)
Fixpoint for_fold {S A B} (l : list A) (body : B -> A -> M S B) (acc : B) : M S B :=
  match l with
  | [] => ret acc
  | x :: l' => let* acc := body acc x in for_fold l' body acc
  end.

(** The inner loop of [suggest_connections] *)
Definition add_suggestions (uid : string) (user_friends : gset string)
    (suggestions : list string) (friend_connections : list SocialConnection.t)
    : list string :=
  foldl (fun suggestions friend_conn =>
           let potential_friend := SocialConnection.target_user_id friend_conn in
           (* Skip if already connected or is the user themselves *)
           if decide (potential_friend ≠ uid ∧ potential_friend ∉ user_friends) then
             if decide (potential_friend ∈ suggestions) then suggestions
             else suggestions ++ [potential_friend]
           else suggestions)
        suggestions friend_connections.

Definition suggest_connections (uid : string) (limit : Z) : M (t * W) (list string) :=
  let* user_connections := get_user_connections uid (Some FRIEND) in
  let user_friends := targets user_connections in
  (* Find friends of friends *)
  let* suggestions :=
    for_fold (elements user_friends)
      (fun suggestions friend_id =>
         let* friend_connections := get_user_connections friend_id (Some FRIEND) in
         ret (add_suggestions uid user_friends suggestions friend_connections))
      [] in
  ret (slice_to limit suggestions).
End ConnectionManager.
End ConnectionManager.

(** ** Rooms *)

Module SocialRoom.
Record t := {
  room_id : string;
  name : string;
  description : string;
  room_type : RoomType;
  owner_id : string;
  capacity : Z;
  current_users : gset string;
  moderators : gset string;
  settings : gmap string Any;
  created_at : Time;
  tags : list string;
  metadata : gmap string Any
}.

Definition with_current_users (v : gset string) (r : t) : t :=
  {| SocialRoom.room_id := SocialRoom.room_id r; SocialRoom.name := SocialRoom.name r;
     SocialRoom.description := SocialRoom.description r; SocialRoom.room_type := SocialRoom.room_type r;
     SocialRoom.owner_id := SocialRoom.owner_id r; SocialRoom.capacity := SocialRoom.capacity r;
     SocialRoom.current_users := v; SocialRoom.moderators := SocialRoom.moderators r;
     SocialRoom.settings := SocialRoom.settings r; SocialRoom.created_at := SocialRoom.created_at r;
     SocialRoom.tags := SocialRoom.tags r; SocialRoom.metadata := SocialRoom.metadata r |}.

Definition with_moderators (v : gset string) (r : t) : t :=
  {| SocialRoom.room_id := SocialRoom.room_id r; SocialRoom.name := SocialRoom.name r;
     SocialRoom.description := SocialRoom.description r; SocialRoom.room_type := SocialRoom.room_type r;
     SocialRoom.owner_id := SocialRoom.owner_id r; SocialRoom.capacity := SocialRoom.capacity r;
     SocialRoom.current_users := SocialRoom.current_users r; SocialRoom.moderators := v;
     SocialRoom.settings := SocialRoom.settings r; SocialRoom.created_at := SocialRoom.created_at r;
     SocialRoom.tags := SocialRoom.tags r; SocialRoom.metadata := SocialRoom.metadata r |}.

(** [room.current_users.discard(uid)] and [room.moderators.discard(uid)] *)
Definition discard_user (uid : string) (r : t) : t :=
  with_moderators (moderators r ∖ {[uid]})
    (with_current_users (current_users r ∖ {[uid]}) r).

(** [len(room.current_users)] *)
Definition occupancy (r : t) : Z := Z.of_nat (size (current_users r)).
End SocialRoom.

(** The [room_data] dictionary of [create_room]. *)
Module RoomData.
Record t := {
  room_id : option string;
  name : option string;
  description : option string;
  room_type : option string;
  owner_id : option string;
  capacity : option Z;
  settings : option (gmap string Any);
  tags : option (list string);
  metadata : option (gmap string Any)
}.
End RoomData.

Module RoomManager.
Section RoomManager.
Context {W : Type} `{Runtime W}.

Record t := {
  rooms : gmap string SocialRoom.t;
  user_rooms : gmap string (gset string);   (* user_id -> room_ids *)
  room_callbacks : list (string -> string -> string -> W -> W)
}.

(** [RoomManager()] *)
Definition init : t := {| rooms := ∅; user_rooms := ∅; room_callbacks := [] |}.

Definition with_rooms (f : gmap string SocialRoom.t -> gmap string SocialRoom.t)
    (rm : t) : t :=
  {| rooms := f (rooms rm); user_rooms := user_rooms rm;
     room_callbacks := room_callbacks rm |}.

Definition with_user_rooms (f : gmap string (gset string) -> gmap string (gset string))
    (rm : t) : t :=
  {| rooms := rooms rm; user_rooms := f (user_rooms rm);
     room_callbacks := room_callbacks rm |}.

Definition add_room_callback (cb : string -> string -> string -> W -> W) (rm : t) : t :=
  {| rooms := rooms rm; user_rooms := user_rooms rm;
     room_callbacks := room_callbacks rm ++ [cb] |}.

Definition _notify_room_event (event_type room_id uid : string) : M (t * W) unit :=
  let* rm := self in
  for_each (room_callbacks rm) (fun cb => invoke (cb event_type room_id uid)).

(** The keyword arguments of [SocialRoom(...)] are evaluated in order:
    a missing ["name"] raises before an unknown room type does, and that
    before a missing ["owner_id"]. *)
Definition create_room (room_data : RoomData.t) : M (t * W) SocialRoom.t :=
  let* fresh := new_uuid in
  let room_id := default fresh (RoomData.room_id room_data) in
  match RoomData.name room_data with
  | None => raise (KeyError "name")
  | Some name =>
    let type_name := default "public" (RoomData.room_type room_data) in
    match RoomType_of_value type_name with
    | None => raise (ValueError type_name)
    | Some room_type =>
      match RoomData.owner_id room_data with
      | None => raise (KeyError "owner_id")
      | Some owner_id =>
        let* created := now in
        let room :=
          {| SocialRoom.room_id := room_id;
             SocialRoom.name := name;
             SocialRoom.description := default "" (RoomData.description room_data);
             SocialRoom.room_type := room_type;
             SocialRoom.owner_id := owner_id;
             SocialRoom.capacity := default 50%Z (RoomData.capacity room_data);
             SocialRoom.current_users := ∅;
             (* Add owner as moderator *)
             SocialRoom.moderators := {[owner_id]};
             SocialRoom.settings := default ∅ (RoomData.settings room_data);
             SocialRoom.created_at := created;
             SocialRoom.tags := default [] (RoomData.tags room_data);
             SocialRoom.metadata := default ∅ (RoomData.metadata room_data) |} in
        update_self (with_rooms (insert room_id room)) ;;
        ret room
      end
    end
  end.

Definition get_room (room_id : string) : M (t * W) (option SocialRoom.t) :=
  let* rm := self in ret (rooms rm !! room_id).

Definition join_room (room_id uid : string) : M (t * W) bool :=
  let* rm := self in
  match rooms rm !! room_id with
  | None => ret false
  | Some room =>
    (* Check capacity *)
    if decide (SocialRoom.capacity room ≤ SocialRoom.occupancy room)%Z then ret false
    else
      (* Add user to room *)
      update_self (with_rooms (insert room_id
        (SocialRoom.with_current_users ({[uid]} ∪ SocialRoom.current_users room) room))) ;;
      (* Update user rooms index *)
      (match user_rooms rm !! uid with
       | None => update_self (with_user_rooms (insert uid ∅))
       | Some _ => ret tt
       end) ;;
      update_self (with_user_rooms (alter (fun ids => {[room_id]} ∪ ids) uid)) ;;
      _notify_room_event "user_joined" room_id uid ;;
      ret true
  end.

(** [del self.rooms[room_id]] *)
Definition del_room (room_id : string) : M (t * W) unit :=
  let* rm := self in
  match rooms rm !! room_id with
  | None => raise (KeyError room_id)
  | Some _ => update_self (with_rooms (delete room_id))
  end.

(** [leave_room] calls [delete_room] and [delete_room] calls
    [leave_room]: the two are defined together, by recursion on a bound
    [depth] on the nesting of these calls.  The room object is shared
    with the dictionary [rooms]: a mutation of it replaces the entry. *)
Fixpoint leave_room (depth : nat) (room_id uid : string) {struct depth}
    : M (t * W) bool :=
  match depth with
  | O => fun _ => OutOfFuel
  | S depth =>
    let* rm := self in
    match rooms rm !! room_id with
    | None => ret false
    | Some room =>
      if decide (uid ∈ SocialRoom.current_users room) then
        (* Remove user from room *)
        let room := SocialRoom.discard_user uid room in
        update_self (with_rooms (insert room_id room)) ;;
        (* Update user rooms index *)
        update_self (with_user_rooms (alter (fun ids => ids ∖ {[room_id]}) uid)) ;;
        _notify_room_event "user_left" room_id uid ;;
        (* Delete room if empty and temporary *)
        (if decide (SocialRoom.room_type room = TEMPORARY
                    ∧ SocialRoom.occupancy room = 0%Z)
         then delete_room depth room_id ;; ret tt
         else ret tt) ;;
        ret true
      else ret false
    end
  end
with delete_room (depth : nat) (room_id : string) {struct depth} : M (t * W) bool :=
  match depth with
  | O => fun _ => OutOfFuel
  | S depth =>
    let* rm := self in
    match rooms rm !! room_id with
    | None => ret false
    | Some room =>
      (* Remove all users from room *)
      for_each (elements (SocialRoom.current_users room))
        (fun uid => leave_room depth room_id uid ;; ret tt) ;;
      (* Delete room *)
      del_room room_id ;;
      ret true
    end
  end.

(** [[self.rooms[room_id] for room_id in user_room_ids if room_id in self.rooms]] *)
Definition get_user_rooms (uid : string) : M (t * W) (list SocialRoom.t) :=
  let* rm := self in
  ret (omap (fun room_id => rooms rm !! room_id)
         (elements (default ∅ (user_rooms rm !! uid)))).

(** [add_moderator(room_id, user_id, moderator_id)]: [moderator_id] is
    the one who asks. *)
Definition add_moderator (room_id uid moderator_id : string) : M (t * W) bool :=
  let* rm := self in
  match rooms rm !! room_id with
  | None => ret false
  | Some room =>
    (* Check if requester is owner or moderator *)
    if decide (moderator_id ≠ SocialRoom.owner_id room
               ∧ moderator_id ∉ SocialRoom.moderators room)
    then ret false
    else
      update_self (with_rooms (insert room_id
        (SocialRoom.with_moderators ({[uid]} ∪ SocialRoom.moderators room) room))) ;;
      ret true
  end.
End RoomManager.
Arguments t W : clear implicits.
End RoomManager.

(** ** Messages *)

Module Message.
Record t := {
  message_id : string;
  sender_id : string;
  room_id : option string;
  recipient_id : option string;
  content : string;
  message_type : string;
  attachments : list (gmap string Any);
  reactions : gmap string (list string);   (* emoji -> user_ids *)
  timestamp : Time;
  edited_at : option Time;
  metadata : gmap string Any
}.

Definition with_content (v : string) (m : t) : t :=
  {| Message.message_id := Message.message_id m; Message.sender_id := Message.sender_id m;
     Message.room_id := Message.room_id m; Message.recipient_id := Message.recipient_id m;
     Message.content := v; Message.message_type := Message.message_type m;
     Message.attachments := Message.attachments m; Message.reactions := Message.reactions m;
     Message.timestamp := Message.timestamp m; Message.edited_at := Message.edited_at m;
     Message.metadata := Message.metadata m |}.

Definition with_edited_at (v : option Time) (m : t) : t :=
  {| Message.message_id := Message.message_id m; Message.sender_id := Message.sender_id m;
     Message.room_id := Message.room_id m; Message.recipient_id := Message.recipient_id m;
     Message.content := Message.content m; Message.message_type := Message.message_type m;
     Message.attachments := Message.attachments m; Message.reactions := Message.reactions m;
     Message.timestamp := Message.timestamp m; Message.edited_at := v;
     Message.metadata := Message.metadata m |}.

Definition with_reactions (v : gmap string (list string)) (m : t) : t :=
  {| Message.message_id := Message.message_id m; Message.sender_id := Message.sender_id m;
     Message.room_id := Message.room_id m; Message.recipient_id := Message.recipient_id m;
     Message.content := Message.content m; Message.message_type := Message.message_type m;
     Message.attachments := Message.attachments m; Message.reactions := v;
     Message.timestamp := Message.timestamp m; Message.edited_at := Message.edited_at m;
     Message.metadata := Message.metadata m |}.
End Message.

(** The [message_data] dictionary of [send_message]. *)
Module MessageData.
Record t := {
  sender_id : option string;
  room_id : option string;
  recipient_id : option string;
  content : option string;
  message_type : option string;
  attachments : option (list (gmap string Any));
  metadata : option (gmap string Any)
}.
End MessageData.

(** The truth value of an optional string: [None] and [""] are false. *)
Definition truthy (o : option string) : option string :=
  match o with
  | Some s => if decide (s = "") then None else Some s
  | None => None
  end.

(** [l.remove(x)] for an [x] that occurs in [l]: the first occurrence goes. *)
Fixpoint list_remove_first (x : string) (l : list string) : list string :=
  match l with
  | [] => []
  | y :: l' => if decide (y = x) then l' else y :: list_remove_first x l'
  end.

(** [if key not in index: index[key] = []] followed by
    [index[key].append(x)] *)
Definition index_append (key x : string) (index : gmap string (list string))
    : gmap string (list string) :=
  let index := match index !! key with None => <[key := []]> index | Some _ => index end in
  alter (fun l => l ++ [x]) key index.

(** [if key in index: if x in index[key]: index[key].remove(x)] *)
Definition index_remove (key x : string) (index : gmap string (list string))
    : gmap string (list string) :=
  match index !! key with
  | Some l => if decide (x ∈ l) then <[key := list_remove_first x l]> index else index
  | None => index
  end.

Module MessageManager.
Section MessageManager.
Context {W : Type} `{Runtime W}.

Record t := {
  messages : gmap string Message.t;
  room_messages : gmap string (list string);   (* room_id -> message_ids *)
  user_messages : gmap string (list string);   (* user_id -> message_ids *)
  message_callbacks : list (string -> Message.t -> W -> W)
}.

(** [MessageManager()] *)
Definition init : t :=
  {| messages := ∅; room_messages := ∅; user_messages := ∅;
     message_callbacks := [] |}.

Definition with_messages (f : gmap string Message.t -> gmap string Message.t)
    (mm : t) : t :=
  {| messages := f (messages mm); room_messages := room_messages mm;
     user_messages := user_messages mm; message_callbacks := message_callbacks mm |}.

Definition with_room_messages
    (f : gmap string (list string) -> gmap string (list string)) (mm : t) : t :=
  {| messages := messages mm; room_messages := f (room_messages mm);
     user_messages := user_messages mm; message_callbacks := message_callbacks mm |}.

Definition with_user_messages
    (f : gmap string (list string) -> gmap string (list string)) (mm : t) : t :=
  {| messages := messages mm; room_messages := room_messages mm;
     user_messages := f (user_messages mm); message_callbacks := message_callbacks mm |}.

Definition add_message_callback (cb : string -> Message.t -> W -> W) (mm : t) : t :=
  {| messages := messages mm; room_messages := room_messages mm;
     user_messages := user_messages mm;
     message_callbacks := message_callbacks mm ++ [cb] |}.

Definition _notify_message_event (event_type : string) (message : Message.t)
    : M (t * W) unit :=
  let* mm := self in
  for_each (message_callbacks mm) (fun cb => invoke (cb event_type message)).

Definition send_message (message_data : MessageData.t) : M (t * W) Message.t :=
  let* message_id := new_uuid in
  match MessageData.sender_id message_data with
  | None => raise (KeyError "sender_id")
  | Some sender_id =>
    let* ts := now in
    let message :=
      {| Message.message_id := message_id;
         Message.sender_id := sender_id;
         Message.room_id := MessageData.room_id message_data;
         Message.recipient_id := MessageData.recipient_id message_data;
         Message.content := default "" (MessageData.content message_data);
         Message.message_type := default "text" (MessageData.message_type message_data);
         Message.attachments := default [] (MessageData.attachments message_data);
         Message.reactions := ∅;
         Message.timestamp := ts;
         Message.edited_at := None;
         Message.metadata := default ∅ (MessageData.metadata message_data) |} in
    update_self (with_messages (insert message_id message)) ;;
    (* Index message *)
    (match truthy (Message.room_id message) with
     | Some room_id => update_self (with_room_messages (index_append room_id message_id))
     | None => ret tt
     end) ;;
    (match truthy (Message.recipient_id message) with
     | Some recipient_id =>
       update_self (with_user_messages (index_append recipient_id message_id))
     | None => ret tt
     end) ;;
    _notify_message_event "message_sent" message ;;
    ret message
  end.

Definition get_message (message_id : string) : M (t * W) (option Message.t) :=
  let* mm := self in ret (messages mm !! message_id).

Definition add_reaction (message_id uid emoji : string) : M (t * W) bool :=
  let* mm := self in
  match messages mm !! message_id with
  | None => ret false
  | Some message =>
    let reactions := Message.reactions message in
    let reactions :=
      match reactions !! emoji with
      | None => <[emoji := []]> reactions
      | Some _ => reactions
      end in
    let reactions :=
      alter (fun l => if decide (uid ∈ l) then l else l ++ [uid]) emoji reactions in
    let message := Message.with_reactions reactions message in
    update_self (with_messages (insert message_id message)) ;;
    _notify_message_event "reaction_added" message ;;
    ret true
  end.

Definition remove_reaction (message_id uid emoji : string) : M (t * W) bool :=
  let* mm := self in
  match messages mm !! message_id with
  | None => ret false
  | Some message =>
    match Message.reactions message !! emoji with
    | Some l =>
      if decide (uid ∈ l) then
        let l := list_remove_first uid l in
        let reactions := <[emoji := l]> (Message.reactions message) in
        (* Remove emoji if no users have reacted with it *)
        let reactions :=
          match l with
          | [] => delete emoji reactions
          | _ :: _ => reactions
          end in
        let message := Message.with_reactions reactions message in
        update_self (with_messages (insert message_id message)) ;;
        _notify_message_event "reaction_removed" message ;;
        ret true
      else ret false
    | None => ret false
    end
  end.

Definition edit_message (message_id new_content uid : string) : M (t * W) bool :=
  let* mm := self in
  match messages mm !! message_id with
  | None => ret false
  | Some message =>
    if decide (Message.sender_id message = uid) then
      let message := Message.with_content new_content message in
      update_self (with_messages (insert message_id message)) ;;
      let* t := now in
      let message := Message.with_edited_at (Some t) message in
      update_self (with_messages (insert message_id message)) ;;
      _notify_message_event "message_edited" message ;;
      ret true
    else ret false
  end.

Definition delete_message (message_id uid : string) : M (t * W) bool :=
  let* mm := self in
  match messages mm !! message_id with
  | None => ret false
  | Some message =>
    if decide (Message.sender_id message = uid) then
      (* Remove from indexes *)
      (match truthy (Message.room_id message) with
       | Some room_id => update_self (with_room_messages (index_remove room_id message_id))
       | None => ret tt
       end) ;;
      (match truthy (Message.recipient_id message) with
       | Some recipient_id =>
         update_self (with_user_messages (index_remove recipient_id message_id))
       | None => ret tt
       end) ;;
      (* Delete message *)
      update_self (with_messages (delete message_id)) ;;
      _notify_message_event "message_deleted" message ;;
      ret true
    else ret false
  end.

(** The truth value of [before_timestamp]: [None] and [0] are false. *)
Definition cutoff (before_timestamp : option Time) : option Time :=
  match before_timestamp with
  | Some t => if decide (t = 0%Z) then None else Some t
  | None => None
  end.

(** The loop of [get_room_messages]: the length is tested against
    [limit] after a message is appended, and a true test breaks. *)
Fixpoint collect_messages (store : gmap string Message.t) (limit : Z)
    (before_timestamp : option Time) (message_ids : list string)
    (acc : list Message.t) : list Message.t :=
  match message_ids with
  | [] => acc
  | message_id :: rest =>
    match store !! message_id with
    | Some message =>
      match cutoff before_timestamp with
      | Some t =>
        if decide (t ≤ Message.timestamp message)%Z
        then collect_messages store limit before_timestamp rest acc
        else
          let acc := acc ++ [message] in
          if decide (limit ≤ Z.of_nat (length acc))%Z then acc
          else collect_messages store limit before_timestamp rest acc
      | None =>
        let acc := acc ++ [message] in
        if decide (limit ≤ Z.of_nat (length acc))%Z then acc
        else collect_messages store limit before_timestamp rest acc
      end
    | None => collect_messages store limit before_timestamp rest acc
    end
  end.

Definition get_room_messages (room_id : string) (limit : Z)
    (before_timestamp : option Time) : M (t * W) (list Message.t) :=
  let* mm := self in
  let message_ids := default [] (room_messages mm !! room_id) in
  ret (collect_messages (messages mm) limit before_timestamp (reverse message_ids) []).

Definition get_user_messages (uid : string) (limit : Z) : M (t * W) (list Message.t) :=
  let* mm := self in
  let message_ids := default [] (user_messages mm !! uid) in
  ret (collect_messages (messages mm) limit None (reverse message_ids) []).
End MessageManager.
Arguments t W : clear implicits.
End MessageManager.

(** ** Events *)

Module SocialEvent.
Record t := {
  event_id : string;
  event_type : string;
  user_id : string;
  room_id : option string;
  data : gmap string Any;
  timestamp : Time
}.
End SocialEvent.

Module RealtimeManager.
Section RealtimeManager.
Context {W : Type} `{Runtime W}.

(** An [EventHandler] is its [handle_event] method.  The class is
    abstract and the repository defines no subclass of it. *)
Record t := {
  event_handlers : gmap string (list (SocialEvent.t -> W -> W));
  user_subscriptions : gmap string (gset string);   (* user_id -> event_types *)
  room_subscriptions : gmap string (gset string);   (* room_id -> user_ids *)
  event_queue : list SocialEvent.t
}.

(** [RealtimeManager()] *)
Definition init : t :=
  {| event_handlers := ∅; user_subscriptions := ∅; room_subscriptions := ∅;
     event_queue := [] |}.

Definition with_user_subscriptions
    (f : gmap string (gset string) -> gmap string (gset string)) (rt : t) : t :=
  {| event_handlers := event_handlers rt;
     user_subscriptions := f (user_subscriptions rt);
     room_subscriptions := room_subscriptions rt; event_queue := event_queue rt |}.

Definition with_room_subscriptions
    (f : gmap string (gset string) -> gmap string (gset string)) (rt : t) : t :=
  {| event_handlers := event_handlers rt;
     user_subscriptions := user_subscriptions rt;
     room_subscriptions := f (room_subscriptions rt); event_queue := event_queue rt |}.

Definition with_event_queue (f : list SocialEvent.t -> list SocialEvent.t) (rt : t) : t :=
  {| event_handlers := event_handlers rt;
     user_subscriptions := user_subscriptions rt;
     room_subscriptions := room_subscriptions rt; event_queue := f (event_queue rt) |}.

Definition add_event_handler (event_type : string) (handler : SocialEvent.t -> W -> W)
    (rt : t) : t :=
  {| event_handlers :=
       <[event_type := default [] (event_handlers rt !! event_type) ++ [handler]]>
         (event_handlers rt);
     user_subscriptions := user_subscriptions rt;
     room_subscriptions := room_subscriptions rt; event_queue := event_queue rt |}.

Definition subscribe_user (uid : string) (event_types : list string) : M (t * W) unit :=
  let* rt := self in
  (match user_subscriptions rt !! uid with
   | None => update_self (with_user_subscriptions (insert uid ∅))
   | Some _ => ret tt
   end) ;;
  update_self (with_user_subscriptions
    (alter (fun subs => subs ∪ list_to_set event_types) uid)).

Definition unsubscribe_user (uid : string) (event_types : list string)
    : M (t * W) unit :=
  update_self (with_user_subscriptions
    (alter (fun subs => subs ∖ list_to_set event_types) uid)).

Definition subscribe_to_room (uid room_id : string) : M (t * W) unit :=
  let* rt := self in
  (match room_subscriptions rt !! room_id with
   | None => update_self (with_room_subscriptions (insert room_id ∅))
   | Some _ => ret tt
   end) ;;
  update_self (with_room_subscriptions (alter (fun users => {[uid]} ∪ users) room_id)).

Definition unsubscribe_from_room (uid room_id : string) : M (t * W) unit :=
  update_self (with_room_subscriptions (alter (fun users => users ∖ {[uid]}) room_id)).

(** The set [notified_users] that [_notify_subscribers] builds *)
Definition notified_users (rt : t) (event : SocialEvent.t) : gset string :=
  dom (filter (fun entry => SocialEvent.event_type event ∈ snd entry)
         (user_subscriptions rt))
  ∪ match truthy (SocialEvent.room_id event) with
    | Some room_id => default ∅ (room_subscriptions rt !! room_id)
    | None => ∅
    end.

(** [_send_notification] prints a line and does nothing else. *)
Definition _send_notification (uid : string) (event : SocialEvent.t) : M (t * W) unit :=
  ret tt.

Definition _notify_subscribers (event : SocialEvent.t) : M (t * W) unit :=
  let* rt := self in
  for_each (elements (notified_users rt event)) (fun uid => _send_notification uid event).

Definition emit_event (event : SocialEvent.t) : M (t * W) unit :=
  (* Add to event queue *)
  update_self (with_event_queue (fun q => q ++ [event])) ;;
  (* Process event handlers *)
  let* rt := self in
  for_each (default [] (event_handlers rt !! SocialEvent.event_type event))
    (fun handler => invoke (handler event)) ;;
  (* Notify subscribed users *)
  _notify_subscribers event.

(** The condition under which [get_recent_events] keeps an event *)
Definition concerns (rt : t) (uid : string) (event : SocialEvent.t) : bool :=
  bool_decide (SocialEvent.event_type event ∈ default ∅ (user_subscriptions rt !! uid))
  || bool_decide (SocialEvent.user_id event = uid)
  || match truthy (SocialEvent.room_id event) with
     | Some room_id =>
       match room_subscriptions rt !! room_id with
       | Some users => bool_decide (uid ∈ users)
       | None => false
       end
     | None => false
     end.

(** The loop of [get_recent_events]: the length is tested against
    [limit] after an event is appended, and a true test breaks. *)
Fixpoint collect_recent (keep : SocialEvent.t -> bool) (limit : Z)
    (events relevant_events : list SocialEvent.t) : list SocialEvent.t :=
  match events with
  | [] => relevant_events
  | event :: rest =>
    if keep event then
      let relevant_events := relevant_events ++ [event] in
      if decide (limit ≤ Z.of_nat (length relevant_events))%Z then relevant_events
      else collect_recent keep limit rest relevant_events
    else collect_recent keep limit rest relevant_events
  end.

Definition get_recent_events (uid : string) (limit : Z)
    : M (t * W) (list SocialEvent.t) :=
  let* rt := self in
  ret (collect_recent (concerns rt uid) limit (reverse (event_queue rt)) []).
End RealtimeManager.
Arguments t W : clear implicits.
End RealtimeManager.

(** ** The facade *)

(** A manager of the platform runs in a world made of the realtime
    manager, on which its callbacks emit events, and of the outer world. *)
#[global] Instance Runtime_inner {S W : Type} `{Runtime W} : Runtime (S * W) := {
  uuid4 s := let '(u, w) := uuid4 (snd s) in (u, (fst s, w));
  time_time s := let '(t, w) := time_time (snd s) in (t, (fst s, w))
}.

(** The effect of a call whose value is dropped and whose exceptions are
    caught, as the callbacks are called by [_notify_*]. *)
Definition settle {S A} (m : M S A) (s : S) : S :=
  match m s with
  | Ok _ s' => s'
  | Raise _ s' => s'
  | OutOfFuel => s
  end.

(** The dictionaries that the facade returns: [{"success": True, ...}]
    with a payload, or [{"success": False, "error": ...}]. *)
Inductive Response (A : Type) :=
| Success (payload : A)
| Failure (error : string).

Arguments Success {A} payload.
Arguments Failure {A} error.

Module SocialPlatform.
Section SocialPlatform.
Context {W : Type} `{Runtime W}.

Definition Inner : Type := RealtimeManager.t W * W.

Record t := {
  user_manager : UserManager.t Inner;
  connection_manager : ConnectionManager.t;
  room_manager : RoomManager.t Inner;
  message_manager : MessageManager.t Inner;
  realtime_manager : RealtimeManager.t W
}.

(** The three callbacks of [_setup_callbacks] *)
Definition on_presence_change (uid : string) (status : UserStatus) : Inner -> Inner :=
  settle (
    let* event_id := new_uuid in
    let* ts := now in
    RealtimeManager.emit_event
      {| SocialEvent.event_id := event_id;
         SocialEvent.event_type := "user_presence_changed";
         SocialEvent.user_id := uid;
         SocialEvent.room_id := None;
         SocialEvent.data := {["status" := PyStr (UserStatus_value status)]};
         SocialEvent.timestamp := ts |}).

Definition on_room_event (event_type room_id uid : string) : Inner -> Inner :=
  settle (
    let* event_id := new_uuid in
    let* ts := now in
    RealtimeManager.emit_event
      {| SocialEvent.event_id := event_id;
         SocialEvent.event_type := "room_" +:+ event_type;
         SocialEvent.user_id := uid;
         SocialEvent.room_id := Some room_id;
         SocialEvent.data := ∅;
         SocialEvent.timestamp := ts |}).

Definition on_message_event (event_type : string) (message : Message.t)
    : Inner -> Inner :=
  settle (
    let* event_id := new_uuid in
    let* ts := now in
    RealtimeManager.emit_event
      {| SocialEvent.event_id := event_id;
         SocialEvent.event_type := "message_" +:+ event_type;
         SocialEvent.user_id := Message.sender_id message;
         SocialEvent.room_id := Message.room_id message;
         SocialEvent.data :=
           <["message_id" := PyStr (Message.message_id message)]>
             (<["content" := PyStr (Message.content message)]>
               {["message_type" := PyStr (Message.message_type message)]});
         SocialEvent.timestamp := ts |}).

(** [SocialPlatform()]: the five managers, then [_setup_callbacks] *)
Definition init : t :=
  {| user_manager := UserManager.add_presence_callback on_presence_change UserManager.init;
     connection_manager := ConnectionManager.init;
     room_manager := RoomManager.add_room_callback on_room_event RoomManager.init;
     message_manager :=
       MessageManager.add_message_callback on_message_event MessageManager.init;
     realtime_manager := RealtimeManager.init |}.

(** Calls of the methods of a manager from a method of the facade *)
Definition in_user_manager {A} (m : M (UserManager.t Inner * Inner) A) : M (t * W) A :=
  fun s =>
    let p := fst s in
    let put um rt :=
      {| user_manager := um; connection_manager := connection_manager p;
         room_manager := room_manager p; message_manager := message_manager p;
         realtime_manager := rt |} in
    match m (user_manager p, (realtime_manager p, snd s)) with
    | Ok a (um, (rt, w)) => Ok a (put um rt, w)
    | Raise e (um, (rt, w)) => Raise e (put um rt, w)
    | OutOfFuel => OutOfFuel
    end.

Definition in_connection_manager {A} (m : M (ConnectionManager.t * W) A) : M (t * W) A :=
  fun s =>
    let p := fst s in
    let put cm :=
      {| user_manager := user_manager p; connection_manager := cm;
         room_manager := room_manager p; message_manager := message_manager p;
         realtime_manager := realtime_manager p |} in
    match m (connection_manager p, snd s) with
    | Ok a (cm, w) => Ok a (put cm, w)
    | Raise e (cm, w) => Raise e (put cm, w)
    | OutOfFuel => OutOfFuel
    end.

Definition in_room_manager {A} (m : M (RoomManager.t Inner * Inner) A) : M (t * W) A :=
  fun s =>
    let p := fst s in
    let put rm rt :=
      {| user_manager := user_manager p; connection_manager := connection_manager p;
         room_manager := rm; message_manager := message_manager p;
         realtime_manager := rt |} in
    match m (room_manager p, (realtime_manager p, snd s)) with
    | Ok a (rm, (rt, w)) => Ok a (put rm rt, w)
    | Raise e (rm, (rt, w)) => Raise e (put rm rt, w)
    | OutOfFuel => OutOfFuel
    end.

Definition in_message_manager {A} (m : M (MessageManager.t Inner * Inner) A)
    : M (t * W) A :=
  fun s =>
    let p := fst s in
    let put mm rt :=
      {| user_manager := user_manager p; connection_manager := connection_manager p;
         room_manager := room_manager p; message_manager := mm;
         realtime_manager := rt |} in
    match m (message_manager p, (realtime_manager p, snd s)) with
    | Ok a (mm, (rt, w)) => Ok a (put mm rt, w)
    | Raise e (mm, (rt, w)) => Raise e (put mm rt, w)
    | OutOfFuel => OutOfFuel
    end.

Definition in_realtime_manager {A} (m : M (RealtimeManager.t W * W) A) : M (t * W) A :=
  fun s =>
    let p := fst s in
    let put rt :=
      {| user_manager := user_manager p; connection_manager := connection_manager p;
         room_manager := room_manager p; message_manager := message_manager p;
         realtime_manager := rt |} in
    match m (realtime_manager p, snd s) with
    | Ok a (rt, w) => Ok a (put rt, w)
    | Raise e (rt, w) => Raise e (put rt, w)
    | OutOfFuel => OutOfFuel
    end.

(** *** User management *)

Definition register_user (user_data : UserData.t) : M (t * W) (Response UserProfile.t) :=
  let* user := in_user_manager (UserManager.create_user user_data) in
  ret (Success user).

Definition login_user (uid : string) : M (t * W) (Response (string * UserProfile.t)) :=
  let* user := in_user_manager (UserManager.get_user uid) in
  match user with
  | None => ret (Failure "User not found")
  | Some user =>
    let* session_id := in_user_manager (UserManager.create_session uid) in
    let* p := self in
    (* the profile object, as [create_session] left it *)
    ret (Success (session_id,
                  default user (UserManager.users (user_manager p) !! uid)))
  end.

Definition logout_user (session_id : string) : M (t * W) bool :=
  in_user_manager (UserManager.end_session session_id).

(** *** Connections *)

Definition send_friend_request (uid target : string) : M (t * W) (Response string) :=
  let* user := in_user_manager (UserManager.get_user uid) in
  let* target_user := in_user_manager (UserManager.get_user target) in
  match user, target_user with
  | Some _, Some _ =>
    let* existing_connection :=
      in_connection_manager (ConnectionManager.get_connection uid target) in
    match existing_connection with
    | Some _ => ret (Failure "Connection already exists")
    | None =>
      let* connection :=
        in_connection_manager (ConnectionManager.create_connection uid target FRIEND) in
      let* event_id := new_uuid in
      let* ts := now in
      in_realtime_manager (RealtimeManager.emit_event
        {| SocialEvent.event_id := event_id;
           SocialEvent.event_type := "friend_request_sent";
           SocialEvent.user_id := uid;
           SocialEvent.room_id := None;
           SocialEvent.data := {["target_user_id" := PyStr target]};
           SocialEvent.timestamp := ts |}) ;;
      ret (Success (SocialConnection.connection_id connection))
    end
  | _, _ => ret (Failure "User not found")
  end.

(** *** Rooms *)

Definition create_room (room_data : RoomData.t) : M (t * W) (Response SocialRoom.t) :=
  let* room := in_room_manager (RoomManager.create_room room_data) in
  (* Auto-join the creator *)
  in_room_manager (RoomManager.join_room (SocialRoom.room_id room)
                     (SocialRoom.owner_id room)) ;;
  let* p := self in
  (* the room object, as [join_room] left it *)
  ret (Success (default room
                  (RoomManager.rooms (room_manager p) !! SocialRoom.room_id room))).

Definition join_room (room_id uid : string) : M (t * W) bool :=
  let* success := in_room_manager (RoomManager.join_room room_id uid) in
  (if success then in_realtime_manager (RealtimeManager.subscribe_to_room uid room_id)
   else ret tt) ;;
  ret success.

Definition leave_room (depth : nat) (room_id uid : string) : M (t * W) bool :=
  let* success := in_room_manager (RoomManager.leave_room depth room_id uid) in
  (if success then in_realtime_manager (RealtimeManager.unsubscribe_from_room uid room_id)
   else ret tt) ;;
  ret success.

(** *** Messaging *)

Definition send_message (message_data : MessageData.t) : M (t * W) (Response Message.t) :=
  let* message := in_message_manager (MessageManager.send_message message_data) in
  ret (Success message).
End SocialPlatform.
Arguments t W : clear implicits.
End SocialPlatform.

(** ** A concrete world *)

(** A deterministic world to run the methods in: the n-th identifier
    drawn is ["uuid-n"] and the clock advances by one at every reading. *)
Module Clockwork.
Record t := { issued : nat; ticks : Z }.

Definition start : t := {| issued := 0; ticks := 0 |}.

#[global] Instance runtime : Runtime t := {
  uuid4 w := ("uuid-" +:+ pretty (issued w), {| issued := S (issued w); ticks := ticks w |});
  time_time w := (ticks w, {| issued := issued w; ticks := (ticks w + 1)%Z |})
}.
End Clockwork.

(** ** Histories *)

(** The state in which a call leaves the manager and the world, whether
    it returned or raised. *)
Definition after {S A} (o : Outcome S A) : option S :=
  match o with
  | Ok _ s | Raise _ s => Some s
  | OutOfFuel => None
  end.

Module UserHistory.
Section UserHistory.
Context {W : Type} `{Runtime W}.

(** The calls that a client of [UserManager] can make on it *)
Inductive op :=
| CreateUser (user_data : UserData.t)
| CreateSession (uid : string)
| EndSession (session_id : string)
| SetUserStatus (uid : string) (st : UserStatus)
| UpdateUser (uid : string) (updates : list UserProfile.update).

Definition perform (o : op) : M (UserManager.t W * W) unit :=
  match o with
  | CreateUser user_data => UserManager.create_user user_data ;; ret tt
  | CreateSession uid => UserManager.create_session uid ;; ret tt
  | EndSession session_id => UserManager.end_session session_id ;; ret tt
  | SetUserStatus uid st => UserManager.set_user_status uid st ;; ret tt
  | UpdateUser uid updates => UserManager.update_user uid updates ;; ret tt
  end.

(** A fresh manager has no user and no session. *)
Definition fresh (um : UserManager.t W) : Prop :=
  UserManager.users um = ∅ ∧ UserManager.active_sessions um = ∅.

(** The states that the five operations reach from a fresh manager *)
Inductive reachable : UserManager.t W * W -> Prop :=
| reachable_fresh um w : fresh um -> reachable (um, w)
| reachable_step s o s' :
    reachable s -> after (perform o s) = Some s' -> reachable s'.

(** The states that [create_user], [create_session] and [end_session]
    reach from a fresh manager when no session is opened under the
    identifier of a session that is still open: every session open
    before such a call is still open after it. *)
Definition lifecycle (o : op) (s s' : UserManager.t W * W) : Prop :=
  match o with
  | CreateUser _ | CreateSession _ =>
    UserManager.active_sessions (fst s) ⊆ UserManager.active_sessions (fst s')
  | EndSession _ => True
  | SetUserStatus _ _ | UpdateUser _ _ => False
  end.

Inductive lifecycle_reachable : UserManager.t W * W -> Prop :=
| lifecycle_fresh um w : fresh um -> lifecycle_reachable (um, w)
| lifecycle_step s o s' :
    lifecycle_reachable s -> after (perform o s) = Some s' -> lifecycle o s s' ->
    lifecycle_reachable s'.

(** The state after a sequence of calls *)
Fixpoint perform_all (os : list op) (s : UserManager.t W * W)
    : option (UserManager.t W * W) :=
  match os with
  | [] => Some s
  | o :: os' =>
    match after (perform o s) with
    | Some s' => perform_all os' s'
    | None => None
    end
  end.

(** An active session references the user. *)
Definition has_session (sessions : gmap string Session.t) (uid : string) : Prop :=
  ∃ sid session, sessions !! sid = Some session ∧ Session.user_id session = uid.

(** A registered user is online if and only if a session references it. *)
Definition presence_consistent (um : UserManager.t W) : Prop :=
  ∀ uid profile,
    UserManager.users um !! uid = Some profile ->
    UserProfile.status profile = ONLINE
    ↔ has_session (UserManager.active_sessions um) uid.
End UserHistory.
End UserHistory.

Module ConnectionHistory.
(** The stored edge [e], under the key [k], is reverse to an edge from
    [u] to [target]: the index of [target] lists it and it points to [u]. *)
Definition reverse_of (cm : ConnectionManager.t) (u target k : string)
    (e : SocialConnection.t) : Prop :=
  k ∈ default ∅ (ConnectionManager.user_connections cm !! target)
  ∧ SocialConnection.target_user_id e = u.

(** The edge that the check of [create_connection] marks: the first
    edge from [target] to [u], when it has the type [ty]. *)
Definition detected (cm : ConnectionManager.t) (u target : string)
    (ty : ConnectionType) : option string :=
  match ConnectionManager.get_connection_entry cm target u with
  | Some (rid, r) =>
    if decide (SocialConnection.connection_type r = ty) then Some rid else None
  | None => None
  end.
End ConnectionHistory.

Module RoomHistory.
Section RoomHistory.
Context {W : Type} `{Runtime W}.

(** The calls that create, fill and empty rooms *)
Inductive op :=
| CreateRoom (room_data : RoomData.t)
| JoinRoom (room_id uid : string)
| LeaveRoom (room_id uid : string).

(** [leave_room] is run at a call depth that it never exceeds. *)
Definition perform (o : op) : M (RoomManager.t W * W) unit :=
  match o with
  | CreateRoom room_data => RoomManager.create_room room_data ;; ret tt
  | JoinRoom room_id uid => RoomManager.join_room room_id uid ;; ret tt
  | LeaveRoom room_id uid => RoomManager.leave_room 2 room_id uid ;; ret tt
  end.

Fixpoint perform_all (os : list op) (s : RoomManager.t W * W)
    : option (RoomManager.t W * W) :=
  match os with
  | [] => Some s
  | o :: os' =>
    match after (perform o s) with
    | Some s' => perform_all os' s'
    | None => None
    end
  end.

(** The states that these calls reach from a manager without rooms *)
Inductive reachable : RoomManager.t W * W -> Prop :=
| reachable_fresh rm w : RoomManager.rooms rm = ∅ -> reachable (rm, w)
| reachable_step s o s' :
    reachable s -> after (perform o s) = Some s' -> reachable s'.



End RoomHistory.
End RoomHistory.

(** ** Further invariants *)

Module UserInvariants.
Section UserInvariants.
Context {W : Type}.

End UserInvariants.
End UserInvariants.

Module ConnectionInvariants.
Section ConnectionInvariants.
Context {W : Type} `{Runtime W}.

(** The index of [uid] lists a stored edge [c] under [cid]. *)
Definition lists (cm : ConnectionManager.t) (uid cid : string)
    (c : SocialConnection.t) : Prop :=
  cid ∈ default ∅ (ConnectionManager.user_connections cm !! uid)
  ∧ ConnectionManager.connections cm !! cid = Some c.

(** [x] is a friend of [uid]: the index of [uid] lists an edge of type
    [FRIEND] towards [x]. *)
Definition friend (cm : ConnectionManager.t) (uid x : string) : Prop :=
  ∃ cid c,
    lists cm uid cid c
    ∧ SocialConnection.connection_type c = FRIEND
    ∧ SocialConnection.target_user_id c = x.

(** The calls that a client of [ConnectionManager] can make on it *)
Inductive op :=
| Create (uid target : string) (ty : ConnectionType)
| Strengthen (connection_id : string) (strength : Q)
| Remove (connection_id : string).

Definition perform (o : op) : M (ConnectionManager.t * W) unit :=
  match o with
  | Create uid target ty => ConnectionManager.create_connection uid target ty ;; ret tt
  | Strengthen connection_id strength =>
    ConnectionManager.update_connection_strength connection_id strength ;; ret tt
  | Remove connection_id => ConnectionManager.remove_connection connection_id ;; ret tt
  end.

(** A connection is created under an identifier that is not in use. *)
Definition fresh_id (o : op) (s : ConnectionManager.t * W) : Prop :=
  match o with
  | Create _ _ _ => ConnectionManager.connections (fst s) !! (uuid4 (snd s)).1 = None
  | Strengthen _ _ | Remove _ => True
  end.

(** The states that these calls reach from a manager without
    connections, identifiers being fresh *)
Inductive reachable : ConnectionManager.t * W -> Prop :=
| reachable_init w : reachable (ConnectionManager.init, w)
| reachable_step s o s' :
    reachable s -> fresh_id o s -> after (perform o s) = Some s' -> reachable s'.

(** Store and index agree: an edge is stored under its own identifier
    and listed in the index of its source, and the index of a user lists
    stored edges of that user only. *)
Definition well_indexed (cm : ConnectionManager.t) : Prop :=
  (∀ cid c,
     ConnectionManager.connections cm !! cid = Some c ->
     SocialConnection.connection_id c = cid
     ∧ cid ∈ default ∅ (ConnectionManager.user_connections cm
                          !! SocialConnection.user_id c))
  ∧ (∀ uid cid,
       cid ∈ default ∅ (ConnectionManager.user_connections cm !! uid) ->
       ∃ c, ConnectionManager.connections cm !! cid = Some c
            ∧ SocialConnection.user_id c = uid).
End ConnectionInvariants.
End ConnectionInvariants.

Module RoomInvariants.
Section RoomInvariants.
Context {W : Type} `{Runtime W}.

(** A room is created under an identifier that names no room: the
    identifier of [create_room] is the one given, and the one drawn
    otherwise. *)
Definition fresh_room (o : RoomHistory.op) (s : RoomManager.t W * W) : Prop :=
  match o with
  | RoomHistory.CreateRoom room_data =>
    RoomManager.rooms (fst s)
      !! default (uuid4 (snd s)).1 (RoomData.room_id room_data) = None
  | RoomHistory.JoinRoom _ _ | RoomHistory.LeaveRoom _ _ => True
  end.

(** The states that [create_room], [join_room] and [leave_room] reach
    from a new manager, no room being created over another *)
Inductive reachable : RoomManager.t W * W -> Prop :=
| reachable_init w : reachable (RoomManager.init, w)
| reachable_step s o s' :
    reachable s -> fresh_room o s -> after (RoomHistory.perform o s) = Some s' ->
    reachable s'.

(** The index of a user lists a room exactly when the room exists and
    the user is a member of it. *)
Definition well_indexed (rm : RoomManager.t W) : Prop :=
  ∀ uid room_id,
    room_id ∈ default ∅ (RoomManager.user_rooms rm !! uid)
    ↔ ∃ room, RoomManager.rooms rm !! room_id = Some room
              ∧ uid ∈ SocialRoom.current_users room.
End RoomInvariants.
End RoomInvariants.

(** ** Concrete states *)

Module Examples.
Definition user_data (uid name : string) : UserData.t :=
  {| UserData.user_id := Some uid; UserData.username := Some name;
     UserData.display_name := None; UserData.avatar_url := None;
     UserData.bio := None; UserData.preferences := None;
     UserData.privacy_settings := None; UserData.interests := None;
     UserData.metadata := None |}.

Definition users_start : UserManager.t Clockwork.t * Clockwork.t :=
  (UserManager.init, Clockwork.start).

(** alice registers: her first session is ["uuid-1"]. *)
Definition alice_once : UserManager.t Clockwork.t * Clockwork.t :=
  default users_start
    (UserHistory.perform_all [UserHistory.CreateUser (user_data "alice" "alice_wonder")]
       users_start).

(** alice logs in a second time: her second session is ["uuid-2"]. *)
Definition alice_twice : UserManager.t Clockwork.t * Clockwork.t :=
  default alice_once
    (UserHistory.perform_all [UserHistory.CreateSession "alice"] alice_once).

(** alice, with one session open, sets her status to away. *)
Definition alice_away : UserManager.t Clockwork.t * Clockwork.t :=
  default alice_once
    (UserHistory.perform_all [UserHistory.SetUserStatus "alice" AWAY] alice_once).

Definition connections_start : ConnectionManager.t * Clockwork.t :=
  (ConnectionManager.init, Clockwork.start).

(** bob connects to alice twice: as a friend, under ["uuid-0"], then as
    a follower, under ["uuid-1"]. *)
Definition bob_twice : ConnectionManager.t * Clockwork.t :=
  default connections_start
    (after ((ConnectionManager.create_connection "bob" "alice" FRIEND ;;
             ConnectionManager.create_connection "bob" "alice" FOLLOWER)
              connections_start)).

(** bob connects to alice once, as a friend, under ["uuid-0"]. *)
Definition bob_once : ConnectionManager.t * Clockwork.t :=
  default connections_start
    (after (ConnectionManager.create_connection "bob" "alice" FRIEND connections_start)).

Definition room_data (rid name owner type : string) (capacity : Z) : RoomData.t :=
  {| RoomData.room_id := Some rid; RoomData.name := Some name;
     RoomData.description := None; RoomData.room_type := Some type;
     RoomData.owner_id := Some owner; RoomData.capacity := Some capacity;
     RoomData.settings := None; RoomData.tags := None; RoomData.metadata := None |}.

Definition rooms_start : RoomManager.t Clockwork.t * Clockwork.t :=
  (RoomManager.init, Clockwork.start).


(** A temporary room, and alice in it *)
Definition temporary_room : RoomManager.t Clockwork.t * Clockwork.t :=
  default rooms_start
    (RoomHistory.perform_all
       [RoomHistory.CreateRoom (room_data "T" "Corridor" "alice" "temporary" 10);
        RoomHistory.JoinRoom "T" "alice"]
       rooms_start).


Definition message_data (sender room content : string) : MessageData.t :=
  {| MessageData.sender_id := Some sender; MessageData.room_id := Some room;
     MessageData.recipient_id := None; MessageData.content := Some content;
     MessageData.message_type := None; MessageData.attachments := None;
     MessageData.metadata := None |}.

Definition messages_start : MessageManager.t Clockwork.t * Clockwork.t :=
  (MessageManager.init, Clockwork.start).

(** alice has sent one message to the room R: it is ["uuid-0"]. *)
Definition one_message : MessageManager.t Clockwork.t * Clockwork.t :=
  default messages_start
    (after (MessageManager.send_message (message_data "alice" "R" "Welcome!")
              messages_start)).

Definition platform_start : SocialPlatform.t Clockwork.t * Clockwork.t :=
  (SocialPlatform.init, Clockwork.start).
End Examples.

(** * Properties *)

(** ** Running the monad *)

Ltac run :=
  unfold bind, ret, raise, self, set_self, update_self, new_uuid, now;
  simpl.

Section Running.
Context {Mgr W : Type}.

(** Callbacks never touch the manager and never fail. *)
Lemma for_each_invoke {A} (l : list A) (f : A -> W -> W) (m : Mgr) (w : W) :
  for_each l (fun cb => invoke (f cb)) (m, w)
  = Ok tt (m, foldl (fun w cb => f cb w) w l).
Proof.
  revert w. induction l as [|cb l IH]; intros w; simpl; [done|].
  unfold bind at 1. simpl. apply IH.
Qed.
End Running.

(** ** UserManager *)

Module UserManagerFacts.
Import UserManager.
Section Facts.
Context {W : Type} `{Runtime W}.
Implicit Types (um : UserManager.t W) (w : W).

Lemma notify_presence_change_run uid um w :
  ∃ w', _notify_presence_change uid (um, w) = Ok tt (um, w').
Proof.
  unfold _notify_presence_change. run.
  destruct (users um !! uid) as [user|]; [|by eexists].
  rewrite for_each_invoke. by eexists.
Qed.

(** What [set_user_status] does to a registered user. *)
Lemma set_user_status_run uid st um w user :
  users um !! uid = Some user →
  ∃ um' w',
    set_user_status uid st (um, w) = Ok true (um', w')
    ∧ users um'
      = <[uid := UserProfile.with_last_active (time_time w).1
                   (UserProfile.with_status st user)]> (users um)
    ∧ active_sessions um' = active_sessions um
    ∧ presence_callbacks um' = presence_callbacks um.
Proof.
  intros Hu. unfold set_user_status. run. rewrite Hu. simpl.
  destruct (time_time w) as [t w1] eqn:Ht. simpl.
  set (um1 := with_users _ (with_users _ um)).
  assert (Hum1 : users um1 = <[uid := UserProfile.with_last_active t
                   (UserProfile.with_status st user)]> (users um)).
  { subst um1. simpl. by rewrite insert_insert_eq. }
  destruct (decide (UserProfile.status user = st)) as [_|_]; simpl.
  - by exists um1, w1.
  - destruct (notify_presence_change_run uid um1 w1) as [w2 ->]. simpl.
    by exists um1, w2.
Qed.

Lemma set_user_status_unknown uid st um w :
  users um !! uid = None → set_user_status uid st (um, w) = Ok false (um, w).
Proof. intros Hu. unfold set_user_status. run. by rewrite Hu. Qed.

(** The list that [end_session] builds is empty exactly when no session
    names the user. *)
Lemma sessions_of_nil uid (sessions : gmap string Session.t) :
  sessions_of uid sessions = []
  ↔ ∀ sid s, sessions !! sid = Some s → Session.user_id s ≠ uid.
Proof.
  unfold sessions_of. split.
  - intros Hnil sid s Hs Heq.
    eapply (filter_nil_not_elem_of _ _ s); [exact Hnil|exact Heq|].
    apply list_elem_of_fmap. exists (sid, s). split; [done|].
    by apply elem_of_map_to_list.
  - intros Hnone. apply elem_of_nil_inv. intros s Hin.
    apply list_elem_of_filter in Hin as [Heq Hin].
    apply list_elem_of_fmap in Hin as [[sid s'] [-> Hin]].
    apply elem_of_map_to_list in Hin. by eapply Hnone.
Qed.

(** What [end_session] does to an open session. *)
Lemma end_session_run sid um w session :
  active_sessions um !! sid = Some session →
  ∃ um' w',
    end_session sid (um, w) = Ok true (um', w')
    ∧ active_sessions um' = delete sid (active_sessions um)
    ∧ presence_callbacks um' = presence_callbacks um
    ∧ match sessions_of (Session.user_id session) (delete sid (active_sessions um)),
            users um !! Session.user_id session with
      | [], Some user =>
        ∃ t, users um'
             = <[Session.user_id session :=
                   UserProfile.with_last_active t (UserProfile.with_status OFFLINE user)]>
                 (users um)
      | _, _ => users um' = users um ∧ w' = w
      end.
Proof.
  intros Hs. unfold end_session. run. rewrite Hs. simpl.
  set (uid := Session.user_id session) in *.
  destruct (sessions_of uid (delete sid (active_sessions um))) as [|s0 l].
  - destruct (users um !! uid) as [user|] eqn:Hu.
    + destruct (set_user_status_run uid OFFLINE
                  (with_sessions (delete sid) um) w user Hu)
        as (um' & w' & -> & Husers & Hsess & Hcb).
      simpl. exists um', w'. repeat split; try done. by eexists.
    + rewrite set_user_status_unknown by done. simpl.
      by exists (with_sessions (delete sid) um), w.
  - by exists (with_sessions (delete sid) um), w.
Qed.

Lemma end_session_unknown sid um w :
  active_sessions um !! sid = None → end_session sid (um, w) = Ok false (um, w).
Proof. intros Hs. unfold end_session. run. by rewrite Hs. Qed.

(** C8: ending the only remaining session of a registered user sets the
    status of that user to offline; ending one of several sessions of
    the user leaves the profile, with its status, as it was.  In both
    cases [end_session] returns [True] and the session is gone. *)
Theorem end_session_status um w sid session profile :
  active_sessions um !! sid = Some session →
  users um !! Session.user_id session = Some profile →
  ∃ um' w',
    end_session sid (um, w) = Ok true (um', w')
    ∧ active_sessions um' = delete sid (active_sessions um)
    ∧ ((∀ sid' s', sid' ≠ sid → active_sessions um !! sid' = Some s' →
          Session.user_id s' ≠ Session.user_id session) →
       UserProfile.status <$> users um' !! Session.user_id session = Some OFFLINE)
    ∧ ((∃ sid' s', sid' ≠ sid ∧ active_sessions um !! sid' = Some s'
                   ∧ Session.user_id s' = Session.user_id session) →
       users um' = users um
       ∧ UserProfile.status <$> users um' !! Session.user_id session
         = Some (UserProfile.status profile)).
Proof.
  intros Hs Hu.
  destruct (end_session_run sid um w session Hs) as (um' & w' & Hrun & Hsess & _ & Hcase).
  exists um', w'. split; [done|]. split; [done|]. rewrite Hu in Hcase.
  destruct (sessions_of _ _) as [|s0 l] eqn:Hl.
  - pose proof (proj1 (sessions_of_nil _ _) Hl) as Hnone.
    destruct Hcase as [t Husers]. split.
    + intros _. by rewrite Husers, lookup_insert_eq.
    + intros (sid' & s' & Hne & Hs' & Heq). exfalso.
      eapply (Hnone sid' s'); [|done]. by rewrite lookup_delete_ne.
  - destruct Hcase as [Husers _]. split.
    + intros Hnone. exfalso.
      assert (Hnil : sessions_of (Session.user_id session)
                       (delete sid (active_sessions um)) = []).
      { apply sessions_of_nil. intros sid' s' Hs'.
        apply lookup_delete_Some in Hs' as [Hne Hs']. by eapply Hnone. }
      by rewrite Hnil in Hl.
    + intros _. by rewrite Husers, Hu.
Qed.

(** What [create_session] does: a session for [uid] is stored under the
    identifier drawn, and [uid] is set online when it is registered. *)
Lemma create_session_run uid um w :
  ∃ sid session um' w',
    create_session uid (um, w) = Ok sid (um', w')
    ∧ sid = (uuid4 w).1
    ∧ Session.user_id session = uid
    ∧ active_sessions um' = <[sid := session]> (active_sessions um)
    ∧ presence_callbacks um' = presence_callbacks um
    ∧ match users um !! uid with
      | None => users um' = users um
      | Some user =>
        ∃ t, users um'
             = <[uid := UserProfile.with_last_active t
                          (UserProfile.with_status ONLINE user)]> (users um)
      end.
Proof.
  unfold create_session. run.
  destruct (uuid4 w) as [sid w1]. simpl.
  destruct (time_time w1) as [t1 w2]. simpl.
  destruct (time_time w2) as [t2 w3]. simpl.
  set (session := {| Session.user_id := uid; Session.created_at := t1;
                     Session.last_activity := t2; Session.metadata := ∅ |}).
  set (um1 := with_sessions (insert sid session) um).
  destruct (users um !! uid) as [user|] eqn:Hu.
  - destruct (set_user_status_run uid ONLINE um1 w3 user Hu)
      as (um' & w' & -> & Husers & Hsess & Hcb).
    simpl. exists sid, session, um', w'. repeat split; try done.
    exists (time_time w3).1. exact Husers.
  - rewrite (set_user_status_unknown uid ONLINE um1 w3 Hu). simpl.
    by exists sid, session, um1, w3.
Qed.

(** What [create_user] does.  The identifier is the one that
    [user_data] gives, and the one drawn otherwise. *)
Lemma create_user_run data um w name :
  UserData.username data = Some name →
  ∃ created active sid session um' w',
    let uid := default (uuid4 w).1 (UserData.user_id data) in
    let profile :=
      {| UserProfile.user_id := uid;
         UserProfile.username := name;
         UserProfile.display_name := default name (UserData.display_name data);
         UserProfile.avatar_url := UserData.avatar_url data;
         UserProfile.bio := UserData.bio data;
         UserProfile.status := ONLINE;
         UserProfile.preferences := default ∅ (UserData.preferences data);
         UserProfile.privacy_settings :=
           default default_privacy (UserData.privacy_settings data);
         UserProfile.interests := default [] (UserData.interests data);
         UserProfile.achievements := [];
         UserProfile.created_at := created;
         UserProfile.last_active := active;
         UserProfile.hashed_password := None;
         UserProfile.metadata := default ∅ (UserData.metadata data) |} in
    create_user data (um, w) = Ok profile (um', w')
    ∧ users um' = <[uid := profile]> (users um)
    ∧ Session.user_id session = uid
    ∧ active_sessions um' = <[sid := session]> (active_sessions um)
    ∧ presence_callbacks um' = presence_callbacks um.
Proof.
  intros Hname. unfold create_user. run.
  destruct (uuid4 w) as [fresh w1]. simpl. rewrite Hname. simpl.
  destruct (time_time w1) as [t1 w2]. simpl.
  destruct (time_time w2) as [t2 w3]. simpl.
  set (uid := default fresh (UserData.user_id data)).
  match goal with
  | |- context [with_users (insert uid ?p) um] => set (profile0 := p)
  end.
  destruct (create_session_run uid (with_users (insert uid profile0) um) w3)
    as (sid & session & um' & w' & Hrun & _ & Huid & Hsess & Hcb & Husers).
  rewrite Hrun. simpl in *. rewrite lookup_insert_eq in Husers.
  destruct Husers as [t Husers]. rewrite insert_insert_eq in Husers.
  exists t1, t, sid, session, um', w'.
  rewrite Husers, lookup_insert_eq. simpl. done.
Qed.

Lemma create_user_nameless data um w :
  UserData.username data = None →
  create_user data (um, w) = Raise (KeyError "username") (um, (uuid4 w).2).
Proof.
  intros Hname. unfold create_user. run.
  destruct (uuid4 w) as [fresh w1]. simpl. by rewrite Hname.
Qed.

(** C10: [create_user] on the identifier of a registered user does not
    fail and signals nothing: it returns a profile built from
    [user_data] alone, stores it in place of the old one, and opens a
    session for the identifier. *)
Theorem create_user_replaces um w data uid name old :
  UserData.user_id data = Some uid →
  UserData.username data = Some name →
  users um !! uid = Some old →
  ∃ created active sid session um' w',
    let profile :=
      {| UserProfile.user_id := uid;
         UserProfile.username := name;
         UserProfile.display_name := default name (UserData.display_name data);
         UserProfile.avatar_url := UserData.avatar_url data;
         UserProfile.bio := UserData.bio data;
         UserProfile.status := ONLINE;
         UserProfile.preferences := default ∅ (UserData.preferences data);
         UserProfile.privacy_settings :=
           default default_privacy (UserData.privacy_settings data);
         UserProfile.interests := default [] (UserData.interests data);
         UserProfile.achievements := [];
         UserProfile.created_at := created;
         UserProfile.last_active := active;
         UserProfile.hashed_password := None;
         UserProfile.metadata := default ∅ (UserData.metadata data) |} in
    create_user data (um, w) = Ok profile (um', w')
    ∧ users um !! uid = Some old
    ∧ users um' !! uid = Some profile
    ∧ users um' = <[uid := profile]> (users um)
    ∧ Session.user_id session = uid
    ∧ active_sessions um' = <[sid := session]> (active_sessions um).
Proof.
  intros Hid Hname Hold.
  destruct (create_user_run data um w name Hname)
    as (created & active & sid & session & um' & w' & Hrun).
  rewrite Hid in Hrun. simpl in Hrun.
  destruct Hrun as (Hrun & Husers & Huid & Hsess & _).
  exists created, active, sid, session, um', w'. simpl.
  repeat split; try done. by rewrite Husers, lookup_insert_eq.
Qed.
End Facts.
End UserManagerFacts.

Module UserHistoryFacts.
Import UserManager UserHistory UserManagerFacts.
Section Facts.
Context {W : Type} `{Runtime W}.
Implicit Types (um : UserManager.t W) (w : W).

Lemma users_reachable_perform_all os (s s' : UserManager.t W * W) :
  reachable s → perform_all os s = Some s' → reachable s'.
Proof.
  revert s. induction os as [|o os IH]; intros s Hs Hrun; simpl in Hrun.
  - by injection Hrun as <-.
  - destruct (after (perform o s)) as [s1|] eqn:Hstep; [|done].
    eapply IH; [|done]. by eapply reachable_step.
Qed.

(** Opening a session for a user that is online afterwards, or is not
    registered, keeps the presence consistent when no open session is
    overwritten. *)
Lemma presence_consistent_open um um' uid sid session :
  presence_consistent um →
  active_sessions um' = <[sid := session]> (active_sessions um) →
  active_sessions um ⊆ active_sessions um' →
  Session.user_id session = uid →
  (users um' = users um ∧ users um !! uid = None
   ∨ ∃ profile, users um' = <[uid := profile]> (users um)
                ∧ UserProfile.status profile = ONLINE) →
  presence_consistent um'.
Proof.
  intros Hc Hsess Hsub Huid Husers u p Hp. rewrite Hsess.
  destruct (decide (u = uid)) as [->|Hne].
  - assert (Hon : UserProfile.status p = ONLINE).
    { destruct Husers as [[Heq Hnone]|(p' & Heq & Hon)]; rewrite Heq in Hp.
      - by rewrite Hnone in Hp.
      - rewrite lookup_insert_eq in Hp. by injection Hp as <-. }
    split; [|done]. intros _. exists sid, session. by rewrite lookup_insert_eq.
  - assert (Hp0 : users um !! u = Some p).
    { destruct Husers as [[Heq _]|(p' & Heq & _)]; rewrite Heq in Hp; [done|].
      by rewrite lookup_insert_ne in Hp. }
    rewrite (Hc u p Hp0). split.
    + intros (sid' & s' & Hs' & Hu). exists sid', s'. split; [|done].
      rewrite <- Hsess. by eapply lookup_weaken.
    + intros (sid' & s' & Hs' & Hu). exists sid', s'. split; [|done].
      destruct (decide (sid' = sid)) as [->|Hsid].
      * rewrite lookup_insert_eq in Hs'. injection Hs' as <-. congruence.
      * by rewrite lookup_insert_ne in Hs'.
Qed.

(** Ending a session keeps the presence consistent. *)
Lemma presence_consistent_end um w sid session um' w' :
  presence_consistent um →
  active_sessions um !! sid = Some session →
  end_session sid (um, w) = Ok true (um', w') →
  presence_consistent um'.
Proof.
  intros Hc Hs Hrun.
  destruct (end_session_run sid um w session Hs)
    as (um2 & w2 & Hrun2 & Hsess & _ & Hcase).
  rewrite Hrun in Hrun2. injection Hrun2 as <- <-.
  set (uid := Session.user_id session) in *.
  intros u p Hp. rewrite Hsess.
  assert (Hother : u ≠ uid →
            has_session (delete sid (active_sessions um)) u
            ↔ has_session (active_sessions um) u).
  { intros Hne. split; intros (sid' & s' & Hs' & Hu); exists sid', s'.
    - apply lookup_delete_Some in Hs' as [_ Hs']. done.
    - split; [|done]. apply lookup_delete_Some. split; [|done].
      intros ->. rewrite Hs in Hs'. injection Hs' as <-. by apply Hne. }
  destruct (sessions_of uid (delete sid (active_sessions um))) as [|s0 l] eqn:Hl.
  - pose proof (proj1 (sessions_of_nil _ _) Hl) as Hnone.
    destruct (decide (u = uid)) as [->|Hne].
    + destruct (users um !! uid) as [user|] eqn:Hu.
      * destruct Hcase as [t Husers]. rewrite Husers, lookup_insert_eq in Hp.
        injection Hp as <-. simpl. split; [done|].
        intros (sid' & s' & Hs' & Heq). by destruct (Hnone sid' s' Hs').
      * destruct Hcase as [Husers _]. rewrite Husers, Hu in Hp. done.
    + rewrite (Hother Hne). apply Hc.
      destruct (users um !! uid) as [user|].
      * destruct Hcase as [t Husers]. by rewrite Husers, lookup_insert_ne in Hp.
      * destruct Hcase as [Husers _]. by rewrite Husers in Hp.
  - assert (Husers : users um' = users um).
    { by destruct (users um !! uid); destruct Hcase. }
    rewrite Husers in Hp.
    destruct (decide (u = uid)) as [->|Hne]; [|rewrite (Hother Hne); by apply Hc].
    assert (Hin : s0 ∈ sessions_of uid (delete sid (active_sessions um))).
    { rewrite Hl. left. }
    unfold sessions_of in Hin.
    apply list_elem_of_filter in Hin as [Heq Hin].
    apply list_elem_of_fmap in Hin as [[sid' s'] [-> Hin]].
    apply elem_of_map_to_list in Hin. simpl in Heq.
    split.
    + intros _. by exists sid', s'.
    + intros _. apply (Hc uid p Hp). exists sid', s'. split; [|done].
      by apply lookup_delete_Some in Hin as [_ Hin].
Qed.

(** C9, as the code has it: in every state that [create_user],
    [create_session] and [end_session] reach from a fresh manager
    without overwriting an open session, a registered user is online
    if and only if an active session references that user. *)
Theorem lifecycle_presence_consistent (s : UserManager.t W * W) :
  lifecycle_reachable s → presence_consistent (fst s).
Proof.
  induction 1 as [um w [Hu _]|s o s' Hreach IH Hstep Hlife].
  - intros uid p Hp. simpl in Hp. by rewrite Hu in Hp.
  - destruct s as [um w]. destruct s' as [um' w']. simpl in *.
    destruct o as [data|uid|sid|uid st|uid updates]; simpl in Hlife; try done.
    + (* create_user *)
      unfold perform in Hstep. unfold bind in Hstep.
      destruct (UserData.username data) as [name|] eqn:Hname.
      * destruct (create_user_run data um w name Hname)
          as (created & active & sid & session & um2 & w2 & Hrun).
        simpl in Hrun. destruct Hrun as (Hrun & Husers & Huid & Hsess & _).
        rewrite Hrun in Hstep. simpl in Hstep. injection Hstep as <- <-.
        eapply presence_consistent_open; [exact IH|exact Hsess|exact Hlife|exact Huid|].
        right. eexists. split; [exact Husers|done].
      * rewrite create_user_nameless in Hstep by done. simpl in Hstep.
        by injection Hstep as <- <-.
    + (* create_session *)
      unfold perform in Hstep. unfold bind in Hstep.
      destruct (create_session_run uid um w)
        as (sid & session & um2 & w2 & Hrun & _ & Huid & Hsess & _ & Husers).
      rewrite Hrun in Hstep. simpl in Hstep. injection Hstep as <- <-.
      eapply presence_consistent_open; [exact IH|exact Hsess|exact Hlife|exact Huid|].
      destruct (users um !! uid) as [user|] eqn:Hu.
      * right. destruct Husers as [t Husers]. eexists. split; [exact Husers|done].
      * by left.
    + (* end_session *)
      unfold perform in Hstep. unfold bind in Hstep.
      destruct (active_sessions um !! sid) as [session|] eqn:Hs.
      * destruct (end_session_run sid um w session Hs)
          as (um2 & w2 & Hrun & _).
        rewrite Hrun in Hstep. simpl in Hstep. injection Hstep as <- <-.
        by eapply presence_consistent_end.
      * rewrite end_session_unknown in Hstep by done. simpl in Hstep.
        by injection Hstep as <- <-.
Qed.
End Facts.
End UserHistoryFacts.

Module UserExamples.
Import UserManager UserHistory UserManagerFacts UserHistoryFacts Examples.

(** alice has two sessions: ending the first leaves her online. *)
Lemma end_session_status_witness :
  ∃ um' w',
    end_session "uuid-1" (fst alice_twice, snd alice_twice) = Ok true (um', w')
    ∧ users um' = users (fst alice_twice)
    ∧ UserProfile.status <$> users um' !! "alice" = Some ONLINE.
Proof.
  edestruct (end_session_status (fst alice_twice) (snd alice_twice) "uuid-1")
    as (um' & w' & Hrun & _ & _ & Hmore).
  - vm_compute. reflexivity.
  - vm_compute. reflexivity.
  - exists um', w'. split; [exact Hrun|]. apply Hmore.
    eexists "uuid-2", _. split; [done|]. split; vm_compute; reflexivity.
Defined.

(** alice registers a second time under the same identifier. *)
Lemma create_user_replaces_witness :
  ∃ profile um' w',
    create_user (user_data "alice" "alice_in_chains") (fst alice_once, snd alice_once)
    = Ok profile (um', w')
    ∧ UserProfile.username <$> users (fst alice_once) !! "alice" = Some "alice_wonder"
    ∧ UserProfile.username <$> users um' !! "alice" = Some "alice_in_chains".
Proof.
  edestruct (create_user_replaces (fst alice_once) (snd alice_once)
               (user_data "alice" "alice_in_chains") "alice" "alice_in_chains")
    as (created & active & sid & session & um' & w' & Hrun & Hold & Hnew & _).
  - reflexivity.
  - reflexivity.
  - vm_compute. reflexivity.
  - eexists _, um', w'. split; [exact Hrun|]. by rewrite Hold, Hnew.
Defined.

(** The state in which alice has two sessions is reached without
    overwriting a session, and her presence is consistent there. *)
Lemma lifecycle_presence_consistent_witness :
  lifecycle_reachable alice_twice ∧ presence_consistent (fst alice_twice).
Proof.
  assert (Hreach : lifecycle_reachable alice_twice).
  { apply (lifecycle_step alice_once (CreateSession "alice")).
    - apply (lifecycle_step users_start (CreateUser (user_data "alice" "alice_wonder"))).
      + by apply lifecycle_fresh.
      + vm_compute. reflexivity.
      + apply map_empty_subseteq.
    - vm_compute. reflexivity.
    - apply map_subseteq_spec. intros sid session Hs.
      destruct (decide (sid = "uuid-1")) as [->|Hne].
      + vm_compute in Hs. injection Hs as <-. vm_compute. reflexivity.
      + exfalso. revert Hs.
        replace (active_sessions (fst alice_once))
          with (<["uuid-1" := {| Session.user_id := "alice"; Session.created_at := 2%Z;
                                 Session.last_activity := 3%Z;
                                 Session.metadata := ∅ |}]>
                  (∅ : gmap string Session.t))
          by (vm_compute; reflexivity).
        by rewrite lookup_insert_ne, lookup_empty. }
  split; [exact Hreach|]. exact (lifecycle_presence_consistent alice_twice Hreach).
Defined.

(** C9 fails as stated: alice is away while her session is open. *)
Lemma presence_not_invariant :
  ¬ ∀ s : UserManager.t Clockwork.t * Clockwork.t,
      reachable s → presence_consistent (fst s).
Proof.
  intros Hall.
  assert (Hreach : reachable alice_away).
  { apply (users_reachable_perform_all
             [CreateUser (user_data "alice" "alice_wonder"); SetUserStatus "alice" AWAY]
             users_start).
    - by apply reachable_fresh.
    - vm_compute. reflexivity. }
  destruct (users (fst alice_away) !! "alice") as [profile|] eqn:Hu;
    [|by vm_compute in Hu].
  destruct (Hall alice_away Hreach "alice" profile Hu) as [_ Hon].
  assert (Haway : UserProfile.status profile = AWAY).
  { vm_compute in Hu. by injection Hu as <-. }
  rewrite Haway in Hon. discriminate Hon.
  eexists "uuid-1", _. split; vm_compute; reflexivity.
Qed.
End UserExamples.

(** ** ConnectionManager *)

Module ConnectionManagerFacts.
Import ConnectionManager ConnectionHistory.
Section Facts.
Context {W : Type} `{Runtime W}.
Implicit Types (cm : ConnectionManager.t) (w : W).

Lemma first_towards_Some conns target ids k c :
  first_towards conns target ids = Some (k, c) →
  k ∈ ids ∧ conns !! k = Some c ∧ SocialConnection.target_user_id c = target.
Proof.
  induction ids as [|cid ids IH]; simpl; [done|].
  destruct (conns !! cid) as [c0|] eqn:Hc0.
  - destruct (decide (SocialConnection.target_user_id c0 = target)) as [Ht|_].
    + intros [= <- <-]. split; [left|done].
    + intros Hf. destruct (IH Hf) as (? & ? & ?). split; [by right|done].
  - intros Hf. destruct (IH Hf) as (? & ? & ?). split; [by right|done].
Qed.

Lemma first_towards_is_Some conns target ids k c :
  k ∈ ids → conns !! k = Some c → SocialConnection.target_user_id c = target →
  is_Some (first_towards conns target ids).
Proof.
  intros Hin Hc Ht. induction ids as [|cid ids IH]; [by apply elem_of_nil in Hin|].
  simpl. apply elem_of_cons in Hin as [<-|Hin].
  - rewrite Hc. by destruct (decide _).
  - destruct (conns !! cid) as [c0|]; [|by apply IH].
    destruct (decide _); [done|by apply IH].
Qed.

Lemma create_connection_run u target ty cm w :
  ∃ connection cm' w',
    create_connection u target ty (cm, w) = Ok connection (cm', w')
    ∧ SocialConnection.mutual connection
      = match detected cm u target ty with Some _ => true | None => false end
    ∧ connections cm'
      = <[(uuid4 w).1 := connection]>
          match detected cm u target ty with
          | Some rid => alter (SocialConnection.with_mutual true) rid (connections cm)
          | None => connections cm
          end
    ∧ user_connections cm'
      = alter (fun ids => {[(uuid4 w).1]} ∪ ids) u
          match user_connections cm !! u with
          | None => <[u := ∅]> (user_connections cm)
          | Some _ => user_connections cm
          end.
Proof.
  unfold create_connection, detected. run.
  destruct (uuid4 w) as [cid w1]. simpl.
  destruct (time_time w1) as [t w2]. simpl.
  destruct (get_connection_entry cm target u) as [[rid r]|]; simpl.
  - destruct (decide (SocialConnection.connection_type r = ty)); simpl.
    + destruct (user_connections cm !! u); simpl; by eexists _, _, _.
    + destruct (user_connections cm !! u); simpl; by eexists _, _, _.
  - destruct (user_connections cm !! u); simpl; by eexists _, _, _.
Qed.

(** [create_connection] changes a stored edge in one way only: it sets
    the flag of an edge that is reverse to the new one and has its type. *)
Lemma create_connection_frame u target ty cm w connection cm' w' k e :
  create_connection u target ty (cm, w) = Ok connection (cm', w') →
  connections cm !! (uuid4 w).1 = None →
  connections cm !! k = Some e →
  connections cm' !! k = Some e
  ∨ connections cm' !! k = Some (SocialConnection.with_mutual true e)
    ∧ reverse_of cm u target k e
    ∧ SocialConnection.connection_type e = ty.
Proof.
  intros Hrun Hfresh He.
  destruct (create_connection_run u target ty cm w)
    as (c2 & cm2 & w2 & Hrun2 & _ & Hconns & _).
  rewrite Hrun in Hrun2. injection Hrun2 as <- <- <-.
  assert (Hk : k ≠ (uuid4 w).1) by congruence.
  rewrite Hconns, lookup_insert_ne by done.
  unfold detected, get_connection_entry.
  destruct (first_towards _ _ _) as [[rid r]|] eqn:Hf; [|by left].
  destruct (decide (SocialConnection.connection_type r = ty)) as [Hty|_]; [|by left].
  apply first_towards_Some in Hf as (Hin & Hr & Ht).
  destruct (decide (k = rid)) as [->|Hne].
  - right. rewrite lookup_alter_eq, He. simpl.
    rewrite Hr in He. injection He as <-.
    split; [done|]. split; [|done]. split; [|done].
    by apply elem_of_elements in Hin.
  - left. by rewrite lookup_alter_ne.
Qed.

Lemma remove_connection_frame k0 cm w b cm' w' k :
  remove_connection k0 (cm, w) = Ok b (cm', w') →
  k ≠ k0 →
  connections cm' !! k = connections cm !! k.
Proof.
  unfold remove_connection. run.
  destruct (connections cm !! k0) as [c|]; simpl.
  - intros [= <- <- <-] Hne. simpl. by rewrite lookup_delete_ne.
  - by intros [= <- <- <-] _.
Qed.

Lemma remove_connection_total k0 cm w :
  ∃ b cm' w', remove_connection k0 (cm, w) = Ok b (cm', w').
Proof.
  unfold remove_connection. run.
  destruct (connections cm !! k0) as [c|]; simpl; by eexists _, _, _.
Qed.

(** Whatever the order in which the index of [target] is scanned: when
    it holds two edges towards [u] of different types, the check misses
    one of the two types. *)
Lemma detection_misses_a_type cm u target ids k1 e1 k2 e2 :
  user_connections cm !! target = Some ids →
  k1 ∈ ids → connections cm !! k1 = Some e1 →
  k2 ∈ ids → connections cm !! k2 = Some e2 →
  SocialConnection.target_user_id e1 = u →
  SocialConnection.target_user_id e2 = u →
  SocialConnection.connection_type e1 ≠ SocialConnection.connection_type e2 →
  detected cm u target (SocialConnection.connection_type e1) = None
  ∨ detected cm u target (SocialConnection.connection_type e2) = None.
Proof.
  intros Hids _ _ _ _ _ _ Hne. unfold detected.
  destruct (get_connection_entry cm target u) as [[rid r]|]; [|by left].
  destruct (decide (SocialConnection.connection_type r
                    = SocialConnection.connection_type e1)) as [Heq|_]; [|by left].
  right. rewrite decide_False; [done|]. by rewrite Heq.
Qed.

(** C1, as the code has it: when [create_connection A B T] is called
    under a fresh identifier while the index of [B] holds exactly one
    edge towards [A], and that edge has the type [T], both edges have
    [mutual = True] right after the call.  The flag is set at this
    moment only: a later [create_connection] leaves every stored edge
    that is not reverse to the edge it creates as it is, and
    [remove_connection] leaves every other stored edge as it is. *)
Theorem mutual_flag_set_once cm w A B T ids rid reverse :
  connections cm !! (uuid4 w).1 = None →
  user_connections cm !! B = Some ids →
  rid ∈ ids →
  connections cm !! rid = Some reverse →
  SocialConnection.target_user_id reverse = A →
  SocialConnection.connection_type reverse = T →
  (∀ rid' r', rid' ∈ ids → connections cm !! rid' = Some r' →
     SocialConnection.target_user_id r' = A → rid' = rid) →
  ∃ connection cm' w',
    create_connection A B T (cm, w) = Ok connection (cm', w')
    ∧ SocialConnection.mutual connection = true
    ∧ connections cm' !! (uuid4 w).1 = Some connection
    ∧ connections cm' !! rid = Some (SocialConnection.with_mutual true reverse)
    ∧ (∀ u target ty w2 k e,
         connections cm' !! (uuid4 w2).1 = None →
         connections cm' !! k = Some e →
         ¬ reverse_of cm' u target k e →
         ∃ c2 cm2 w3,
           create_connection u target ty (cm', w2) = Ok c2 (cm2, w3)
           ∧ connections cm2 !! k = Some e)
    ∧ (∀ k0 w2 k e,
         k ≠ k0 →
         connections cm' !! k = Some e →
         ∃ b cm2 w3,
           remove_connection k0 (cm', w2) = Ok b (cm2, w3)
           ∧ connections cm2 !! k = Some e).
Proof.
  intros Hfresh Hids Hin Hrev Htarget Htype Honly.
  destruct (create_connection_run A B T cm w)
    as (connection & cm' & w' & Hrun & Hmutual & Hconns & _).
  assert (Hdet : detected cm A B T = Some rid).
  { unfold detected, get_connection_entry. rewrite Hids. simpl.
    destruct (first_towards_is_Some (connections cm) A (elements ids) rid reverse)
      as [[rid' r'] Hf]; [by apply elem_of_elements|done|done|].
    rewrite Hf. apply first_towards_Some in Hf as (Hin' & Hr' & Ht').
    apply elem_of_elements in Hin'.
    assert (rid' = rid) as -> by by eapply Honly.
    rewrite Hrev in Hr'. injection Hr' as <-.
    by rewrite decide_True. }
  rewrite Hdet in Hmutual, Hconns.
  assert (Hne : rid ≠ (uuid4 w).1) by congruence.
  exists connection, cm', w'. split; [done|]. split; [done|].
  split; [by rewrite Hconns, lookup_insert_eq|].
  split; [by rewrite Hconns, lookup_insert_ne, lookup_alter_eq, Hrev|].
  split.
  - intros u target ty w2 k e Hfresh2 He Hunrelated.
    destruct (create_connection_run u target ty cm' w2)
      as (c2 & cm2 & w3 & Hrun2 & _).
    exists c2, cm2, w3. split; [done|].
    destruct (create_connection_frame u target ty cm' w2 c2 cm2 w3 k e Hrun2 Hfresh2 He)
      as [Hsame|(_ & Hrel & _)]; [done|by destruct Hunrelated].
  - intros k0 w2 k e Hk He.
    destruct (remove_connection_total k0 cm' w2) as (b & cm2 & w3 & Hrun2).
    exists b, cm2, w3. split; [done|].
    by rewrite (remove_connection_frame k0 cm' w2 b cm2 w3 k Hrun2 Hk).
Qed.
End Facts.
End ConnectionManagerFacts.

Module ConnectionExamples.
Import ConnectionManager ConnectionHistory ConnectionManagerFacts Examples.

(** bob is a friend of alice; alice connects to bob as a friend. *)
Lemma mutual_flag_set_once_witness :
  ∃ connection cm' w',
    create_connection "alice" "bob" FRIEND (fst bob_once, snd bob_once)
    = Ok connection (cm', w')
    ∧ SocialConnection.mutual connection = true
    ∧ SocialConnection.mutual <$> connections cm' !! "uuid-0" = Some true.
Proof.
  edestruct (mutual_flag_set_once (fst bob_once) (snd bob_once) "alice" "bob" FRIEND
               {["uuid-0"]} "uuid-0")
    as (connection & cm' & w' & Hrun & Hmutual & _ & Hreverse & _).
  - vm_compute. reflexivity.
  - vm_compute. reflexivity.
  - by apply elem_of_singleton.
  - vm_compute. reflexivity.
  - reflexivity.
  - reflexivity.
  - intros rid' r' Hin _ _. by apply elem_of_singleton in Hin.
  - exists connection, cm', w'. split; [exact Hrun|]. split; [exact Hmutual|].
    by rewrite Hreverse.
Defined.

(** C1 fails as stated: bob is a friend and a follower of alice, alice
    connects to bob as a friend, and no flag is set.  The loop of
    [get_connection] meets the follower edge first, here because of the
    order of [elements], in Python because of the order in which the
    set of bob is iterated; had it met the friend edge first, a
    connection of alice to bob as a follower would have been missed
    ([detection_misses_a_type]). *)
Lemma mutual_detection_misses :
  ∃ ids reverse connection s',
    user_connections (fst bob_twice) !! "bob" = Some ids
    ∧ "uuid-0" ∈ ids
    ∧ connections (fst bob_twice) !! "uuid-0" = Some reverse
    ∧ SocialConnection.user_id reverse = "bob"
    ∧ SocialConnection.target_user_id reverse = "alice"
    ∧ SocialConnection.connection_type reverse = FRIEND
    ∧ connections (fst bob_twice) !! (uuid4 (snd bob_twice)).1 = None
    ∧ create_connection "alice" "bob" FRIEND bob_twice = Ok connection s'
    ∧ SocialConnection.mutual connection = false
    ∧ SocialConnection.mutual <$> connections (fst s') !! "uuid-0" = Some false.
Proof.
  exists {["uuid-0"; "uuid-1"]}. eexists _, _, _.
  split; [vm_compute; reflexivity|].
  split; [set_solver|].
  split; [vm_compute; reflexivity|].
  repeat split; vm_compute; reflexivity.
Qed.
End ConnectionExamples.

(** ** RoomManager *)

Module RoomManagerFacts.
Import RoomManager.
Section Facts.
Context {W : Type} `{Runtime W}.
Implicit Types (rm : RoomManager.t W) (w : W).

Lemma notify_room_event_run event_type rid uid rm w :
  _notify_room_event event_type rid uid (rm, w)
  = Ok tt (rm, foldl (fun w cb => cb event_type rid uid w) w (room_callbacks rm)).
Proof.
  unfold _notify_room_event, bind, self. simpl.
  apply (for_each_invoke (room_callbacks rm) (fun cb => cb event_type rid uid)).
Qed.

Lemma occupancy_zero (room : SocialRoom.t) :
  SocialRoom.occupancy room = 0%Z ↔ SocialRoom.current_users room = ∅.
Proof.
  unfold SocialRoom.occupancy.
  rewrite <- (leibniz_equiv_iff (SocialRoom.current_users room) ∅), <- size_empty_iff.
  lia.
Qed.

(** The bodies of [leave_room] and [delete_room] at a positive depth *)
Lemma leave_room_unfold depth rid uid :
  leave_room (S depth) rid uid
  = (let* rm := self in
     match rooms rm !! rid with
     | None => ret false
     | Some room =>
       if decide (uid ∈ SocialRoom.current_users room) then
         let room := SocialRoom.discard_user uid room in
         update_self (with_rooms (insert rid room)) ;;
         update_self (with_user_rooms (alter (fun ids => ids ∖ {[rid]}) uid)) ;;
         _notify_room_event "user_left" rid uid ;;
         (if decide (SocialRoom.room_type room = TEMPORARY
                     ∧ SocialRoom.occupancy room = 0%Z)
          then delete_room depth rid ;; ret tt
          else ret tt) ;;
         ret true
       else ret false
     end).
Proof. reflexivity. Qed.

Lemma delete_room_unfold depth rid :
  delete_room (S depth) rid
  = (let* rm := self in
     match rooms rm !! rid with
     | None => ret false
     | Some room =>
       for_each (elements (SocialRoom.current_users room))
         (fun uid => leave_room depth rid uid ;; ret tt) ;;
       del_room rid ;;
       ret true
     end).
Proof. reflexivity. Qed.

#[local] Arguments leave_room : simpl never.
#[local] Arguments delete_room : simpl never.

(** [delete_room] on a room without members *)
Lemma delete_room_empty depth rid rm w room :
  rooms rm !! rid = Some room →
  SocialRoom.current_users room = ∅ →
  delete_room (S depth) rid (rm, w) = Ok true (with_rooms (delete rid) rm, w).
Proof.
  intros Hroom Hempty. rewrite delete_room_unfold. run.
  rewrite Hroom, Hempty, elements_empty. simpl.
  unfold del_room. run. by rewrite Hroom.
Qed.

(** What [leave_room] does when a member leaves *)
Lemma leave_room_run depth rid uid rm w room :
  rooms rm !! rid = Some room →
  uid ∈ SocialRoom.current_users room →
  ∃ rm' w',
    leave_room (S (S depth)) rid uid (rm, w) = Ok true (rm', w')
    ∧ rooms rm'
      = (if decide (SocialRoom.room_type room = TEMPORARY
                    ∧ SocialRoom.current_users room ∖ {[uid]} = ∅)
         then delete rid (rooms rm)
         else <[rid := SocialRoom.discard_user uid room]> (rooms rm))
    ∧ user_rooms rm' = alter (fun ids => ids ∖ {[rid]}) uid (user_rooms rm)
    ∧ room_callbacks rm' = room_callbacks rm.
Proof.
  intros Hroom Hin. rewrite leave_room_unfold.
  run. rewrite Hroom. rewrite decide_True by done. simpl.
  rewrite notify_room_event_run. simpl.
  set (rm1 := with_user_rooms _ (with_rooms _ rm)).
  set (w1 := foldl _ w _).
  destruct (decide (SocialRoom.room_type room = TEMPORARY
                    ∧ SocialRoom.current_users room ∖ {[uid]} = ∅)) as [[Ht He]|Hno].
  - rewrite decide_True; [|split; [done|by apply occupancy_zero]].
    rewrite (delete_room_empty depth rid rm1 w1 (SocialRoom.discard_user uid room)).
    + simpl. eexists _, _. split; [done|]. simpl.
      by rewrite delete_insert_eq.
    + subst rm1. simpl. by rewrite lookup_insert_eq.
    + done.
  - rewrite decide_False.
    + simpl. by eexists _, _.
    + intros [Ht Hz]. apply Hno. split; [done|]. by apply occupancy_zero in Hz.
Qed.


(** C4: when a member leaves a room, [leave_room] returns [True]; if
    the room is temporary and is left without members, it is gone from
    the directory and [get_room] returns [None]; a room that is not
    temporary, or keeps a member, is still in the directory, without
    the member who left. *)
Theorem leave_room_temporary depth rid uid rm w room :
  rooms rm !! rid = Some room →
  uid ∈ SocialRoom.current_users room →
  ∃ rm' w',
    leave_room (S (S depth)) rid uid (rm, w) = Ok true (rm', w')
    ∧ (SocialRoom.room_type room = TEMPORARY →
       SocialRoom.current_users room ∖ {[uid]} = ∅ →
       get_room rid (rm', w') = Ok None (rm', w'))
    ∧ (SocialRoom.room_type room ≠ TEMPORARY
       ∨ SocialRoom.current_users room ∖ {[uid]} ≠ ∅ →
       get_room rid (rm', w') = Ok (Some (SocialRoom.discard_user uid room)) (rm', w')).
Proof.
  intros Hroom Hin.
  destruct (leave_room_run depth rid uid rm w room Hroom Hin)
    as (rm' & w' & Hrun & Hrooms & _).
  exists rm', w'. split; [done|]. unfold get_room. run. rewrite Hrooms. split.
  - intros Ht He. rewrite decide_True by done. by rewrite lookup_delete_eq.
  - intros Hor. rewrite decide_False by (intros [Ht He]; by destruct Hor).
    by rewrite lookup_insert_eq.
Qed.

(** The loop of [delete_room] on a temporary room: when the last member
    has left, the room is gone. *)
Lemma evacuate_temporary depth rid (l : list string)
    (body : string → M (t W * W) unit) rm w room :
  (∀ uid s, body uid s = (leave_room (S (S depth)) rid uid ;; ret tt) s) →
  NoDup l → l ≠ [] →
  rooms rm !! rid = Some room →
  SocialRoom.room_type room = TEMPORARY →
  SocialRoom.current_users room = list_to_set l →
  ∃ rm' w', for_each l body (rm, w) = Ok tt (rm', w') ∧ rooms rm' !! rid = None.
Proof.
  intros Hbody. revert rm w room.
  induction l as [|u l IH]; intros rm w room Hnd Hne Hroom Ht Hmem; [done|].
  apply NoDup_cons in Hnd as [Hu Hnd].
  assert (Hin : u ∈ SocialRoom.current_users room).
  { rewrite Hmem, elem_of_list_to_set. left. }
  assert (Hrest : SocialRoom.current_users room ∖ {[u]} = list_to_set l).
  { rewrite Hmem. apply set_eq. intros x. rewrite list_to_set_cons.
    rewrite elem_of_difference, elem_of_union, elem_of_singleton, elem_of_list_to_set.
    split.
    - intros [[->|Hx] Hxu]; [by destruct Hxu|done].
    - intros Hx. split; [by right|]. by intros ->. }
  destruct (leave_room_run depth rid u rm w room Hroom Hin)
    as (rm1 & w1 & Hrun & Hrooms & _).
  simpl. unfold bind at 1. rewrite Hbody. unfold bind at 1. rewrite Hrun.
  unfold ret at 1.
  destruct l as [|u' l'].
  - simpl. exists rm1, w1. split; [done|].
    rewrite Hrooms, decide_True by done. by rewrite lookup_delete_eq.
  - rewrite decide_False in Hrooms.
    + eapply (IH rm1 w1 (SocialRoom.discard_user u room)); try done.
      by rewrite Hrooms, lookup_insert_eq.
    + intros [_ He]. rewrite Hrest in He.
      assert (Hu' : u' ∈ (∅ : gset string)).
      { rewrite <- He, elem_of_list_to_set. left. }
      by apply not_elem_of_empty in Hu'.
Qed.

(** C3 fails on the code: [delete_room] on a temporary room that has a
    member raises [KeyError].  The last [leave_room] of its loop finds
    the room temporary and empty and deletes it, and the [del] that
    follows the loop finds the key gone. *)
Theorem delete_room_temporary_raises depth rid rm w room :
  rooms rm !! rid = Some room →
  SocialRoom.room_type room = TEMPORARY →
  SocialRoom.current_users room ≠ ∅ →
  ∃ rm' w',
    delete_room (S (S (S depth))) rid (rm, w) = Raise (KeyError rid) (rm', w')
    ∧ rooms rm' !! rid = None.
Proof.
  intros Hroom Ht Hne. rewrite delete_room_unfold. run. rewrite Hroom.
  match goal with
  | |- context [for_each _ ?body _] =>
    destruct (evacuate_temporary depth rid (elements (SocialRoom.current_users room))
                body rm w room) as (rm' & w' & Hloop & Hgone)
  end; try done.
  - apply NoDup_elements.
  - intros He. apply Hne. apply leibniz_equiv. by apply elements_empty_inv.
  - by rewrite list_to_set_elements_L.
  - rewrite Hloop. unfold del_room. run. rewrite Hgone. by exists rm', w'.
Qed.






End Facts.
End RoomManagerFacts.

Module RoomHistoryFacts.
Import RoomManager RoomHistory RoomManagerFacts.
Section Facts.
Context {W : Type} `{Runtime W}.
Implicit Types (rm : RoomManager.t W) (w : W).

#[local] Arguments leave_room : simpl never.
#[local] Arguments delete_room : simpl never.




End Facts.
End RoomHistoryFacts.

(** ** MessageManager *)

Module MessageManagerFacts.
Import MessageManager.
Section Facts.
Context {W : Type} `{Runtime W}.
Implicit Types (mm : MessageManager.t W) (w : W).

Lemma notify_message_event_run event_type message mm w :
  _notify_message_event event_type message (mm, w)
  = Ok tt (mm, foldl (fun w cb => cb event_type message w) w (message_callbacks mm)).
Proof.
  unfold _notify_message_event, bind, self. simpl.
  apply (for_each_invoke (message_callbacks mm) (fun cb => cb event_type message)).
Qed.

(** C6: [edit_message] and [delete_message] called with an identifier
    that is not the sender of a stored message return [False] and leave
    the manager and the world as they were: the message, its content
    and [edited_at], the indexes and the store are unchanged, and no
    callback is invoked. *)
Theorem foreign_edit_delete_rejected mm w mid message new_content uid :
  messages mm !! mid = Some message →
  uid ≠ Message.sender_id message →
  edit_message mid new_content uid (mm, w) = Ok false (mm, w)
  ∧ delete_message mid uid (mm, w) = Ok false (mm, w).
Proof.
  intros Hm Hne. unfold edit_message, delete_message. run. rewrite Hm.
  destruct (decide (Message.sender_id message = uid)) as [Heq|_]; [|done].
  by destruct Hne.
Qed.

(** What [add_reaction] and [remove_reaction] do to a stored message *)
Lemma add_reaction_run mm w mid message uid emoji :
  messages mm !! mid = Some message →
  ∃ w',
    add_reaction mid uid emoji (mm, w)
    = Ok true
        (with_messages (insert mid
           (Message.with_reactions
              (alter (fun l => if decide (uid ∈ l) then l else l ++ [uid]) emoji
                 match Message.reactions message !! emoji with
                 | None => <[emoji := []]> (Message.reactions message)
                 | Some _ => Message.reactions message
                 end)
              message)) mm, w').
Proof.
  intros Hm. unfold add_reaction. run. rewrite Hm. simpl.
  rewrite notify_message_event_run. simpl. by eexists.
Qed.

Lemma remove_reaction_run mm w mid message uid emoji l :
  messages mm !! mid = Some message →
  Message.reactions message !! emoji = Some l →
  uid ∈ l →
  ∃ w',
    remove_reaction mid uid emoji (mm, w)
    = Ok true
        (with_messages (insert mid
           (Message.with_reactions
              match list_remove_first uid l with
              | [] => delete emoji
                        (<[emoji := list_remove_first uid l]> (Message.reactions message))
              | _ :: _ => <[emoji := list_remove_first uid l]> (Message.reactions message)
              end
              message)) mm, w').
Proof.
  intros Hm Hl Hin. unfold remove_reaction. run. rewrite Hm, Hl.
  destruct (decide (uid ∈ l)) as [_|Hnot]; [|done]. simpl.
  rewrite notify_message_event_run. simpl. by eexists.
Qed.

(** C7: when nobody has reacted to a stored message with [emoji],
    [add_reaction] followed by [remove_reaction] for the same message,
    user and emoji both return [True] and leave the reactions of the
    message without the key [emoji]: no empty list remains. *)
Theorem add_then_remove_reaction mm w mid message uid emoji :
  messages mm !! mid = Some message →
  (∀ l, Message.reactions message !! emoji = Some l → l = []) →
  ∃ mm1 w1 mm2 w2 message2,
    add_reaction mid uid emoji (mm, w) = Ok true (mm1, w1)
    ∧ remove_reaction mid uid emoji (mm1, w1) = Ok true (mm2, w2)
    ∧ messages mm2 !! mid = Some message2
    ∧ Message.reactions message2 !! emoji = None
    ∧ Message.reactions message2 = delete emoji (Message.reactions message).
Proof.
  intros Hm Hnone.
  destruct (add_reaction_run mm w mid message uid emoji Hm) as [w1 Hadd].
  set (message1 := Message.with_reactions _ message) in Hadd.
  set (mm1 := with_messages (insert mid message1) mm) in Hadd.
  assert (Hl1 : Message.reactions message1 !! emoji = Some [uid]).
  { subst message1. simpl.
    destruct (Message.reactions message !! emoji) as [l|] eqn:Hl.
    - rewrite (Hnone l eq_refl) in Hl. rewrite lookup_alter_eq, Hl. simpl.
      destruct (decide (uid ∈ [])) as [Hin|_]; [|done]. by apply elem_of_nil in Hin.
    - rewrite lookup_alter_eq, lookup_insert_eq. simpl.
      destruct (decide (uid ∈ [])) as [Hin|_]; [|done]. by apply elem_of_nil in Hin. }
  assert (Hm1 : messages mm1 !! mid = Some message1).
  { subst mm1. simpl. by rewrite lookup_insert_eq. }
  destruct (remove_reaction_run mm1 w1 mid message1 uid emoji [uid] Hm1 Hl1)
    as [w2 Hrem]; [by left|].
  simpl in Hrem. destruct (decide (uid = uid)) as [_|Hne]; [|done].
  eexists mm1, w1, _, w2, _. split; [exact Hadd|]. split; [exact Hrem|].
  simpl. rewrite lookup_insert_eq. split; [done|]. simpl.
  rewrite lookup_delete_eq. split; [done|].
  rewrite delete_insert_eq. subst message1. simpl.
  destruct (Message.reactions message !! emoji) as [l|] eqn:Hl.
  - by rewrite delete_alter_eq.
  - by rewrite delete_alter_eq, delete_insert_eq.
Qed.
End Facts.
End MessageManagerFacts.

(** ** RealtimeManager *)

Module RealtimeManagerFacts.
Import RealtimeManager.
Section Facts.
Context {W : Type} `{Runtime W}.
Implicit Types (rt : RealtimeManager.t W) (w : W).

Lemma for_each_ret {S A} (l : list A) (s : S) :
  for_each l (fun _ => ret tt) s = Ok tt s.
Proof. induction l as [|x l IH]; simpl; [done|]. unfold bind at 1. simpl. apply IH. Qed.

(** [emit_event] appends the event to the queue; the handlers act on
    the world only. *)
Lemma emit_event_run event rt w :
  ∃ w', emit_event event (rt, w)
        = Ok tt (with_event_queue (fun q => q ++ [event]) rt, w').
Proof.
  unfold emit_event. run.
  rewrite (for_each_invoke _ (fun handler => handler event)). simpl.
  unfold _notify_subscribers, _send_notification. run.
  rewrite for_each_ret. by eexists.
Qed.

Lemma subscribe_to_room_run uid rid rt w :
  ∃ rt',
    subscribe_to_room uid rid (rt, w) = Ok tt (rt', w)
    ∧ room_subscriptions rt' !! rid
      = Some ({[uid]} ∪ default ∅ (room_subscriptions rt !! rid))
    ∧ user_subscriptions rt' = user_subscriptions rt
    ∧ event_queue rt' = event_queue rt.
Proof.
  unfold subscribe_to_room. run.
  destruct (room_subscriptions rt !! rid) as [users|] eqn:Hr; simpl.
  - eexists. split; [done|]. simpl. by rewrite lookup_alter_eq, Hr.
  - eexists. split; [done|]. simpl. by rewrite lookup_alter_eq, lookup_insert_eq.
Qed.

(** The loop of [get_recent_events] only appends to what it has. *)
Lemma collect_recent_prefix keep limit events acc :
  ∃ more, collect_recent keep limit events acc = acc ++ more.
Proof.
  revert acc. induction events as [|event events IH]; intros acc; simpl.
  - exists []. by rewrite app_nil_r.
  - destruct (keep event); [|apply IH].
    destruct (decide _).
    + by exists [event].
    + destruct (IH (acc ++ [event])) as [more ->].
      exists (event :: more). by rewrite <- app_assoc.
Qed.

(** The newest event of the queue comes first when it concerns the user. *)
Lemma get_recent_events_newest uid limit event rt w :
  concerns rt uid event = true →
  last (event_queue rt) = Some event →
  ∃ events,
    get_recent_events uid limit (rt, w) = Ok (event :: events) (rt, w).
Proof.
  intros Hkeep Hlast. unfold get_recent_events. run.
  revert Hlast. generalize (event_queue rt). intros q.
  destruct q as [|e0 q _] using rev_ind; [done|].
  rewrite last_snoc. intros [= ->].
  rewrite reverse_snoc. simpl. rewrite Hkeep. simpl.
  destruct (decide _); [by exists []|].
  destruct (collect_recent_prefix (concerns rt uid) limit (reverse q) [event])
    as [more ->].
  by exists more.
Qed.
End Facts.
End RealtimeManagerFacts.

(** ** The facade *)

Module SocialPlatformFacts.
Import SocialPlatform RealtimeManagerFacts.
Section Facts.
Context {W : Type} `{Runtime W}.
Implicit Types (p : SocialPlatform.t W) (w : W).

(** The callback of the message manager emits one event, whose type is
    the type it is given with ["message_"] in front. *)
Lemma on_message_event_run event_type message (rt : RealtimeManager.t W) w :
  ∃ event w',
    on_message_event event_type message (rt, w)
    = (RealtimeManager.with_event_queue (fun q => q ++ [event]) rt, w')
    ∧ SocialEvent.event_type event = "message_" +:+ event_type
    ∧ SocialEvent.user_id event = Message.sender_id message
    ∧ SocialEvent.room_id event = Message.room_id message.
Proof.
  unfold on_message_event, settle. run.
  destruct (uuid4 w) as [event_id w1]. simpl.
  destruct (time_time w1) as [ts w2]. simpl.
  match goal with
  | |- context [RealtimeManager.emit_event ?ev _] =>
    destruct (emit_event_run ev rt w2) as [w3 ->]; exists ev, w3
  end.
  done.
Qed.

(** What [send_message] does on a platform whose message manager has
    the callback of [_setup_callbacks]: the message is returned and one
    event is appended to the queue. *)
Lemma send_message_run data sender p w :
  MessageManager.message_callbacks (message_manager p) = [on_message_event] →
  MessageData.sender_id data = Some sender →
  ∃ message p' w' event,
    send_message data (p, w) = Ok (Success message) (p', w')
    ∧ Message.sender_id message = sender
    ∧ Message.room_id message = MessageData.room_id data
    ∧ realtime_manager p'
      = RealtimeManager.with_event_queue (fun q => q ++ [event]) (realtime_manager p)
    ∧ SocialEvent.event_type event = "message_message_sent"
    ∧ SocialEvent.user_id event = sender
    ∧ SocialEvent.room_id event = MessageData.room_id data.
Proof.
  intros Hcb Hsender.
  unfold send_message, in_message_manager, MessageManager.send_message.
  run. destruct (uuid4 w) as [mid w1]. simpl. rewrite Hsender. simpl.
  destruct (time_time w1) as [ts w2]. simpl.
  set (message := {| Message.message_id := mid |}).
  assert (Hnotify : ∀ mm,
            MessageManager.message_callbacks mm = [on_message_event] →
            MessageManager._notify_message_event "message_sent" message
              (mm, (realtime_manager p, w2))
            = Ok tt (mm, on_message_event "message_sent" message (realtime_manager p, w2))).
  { intros mm Hmm. rewrite MessageManagerFacts.notify_message_event_run.
    by rewrite Hmm. }
  destruct (on_message_event_run "message_sent" message (realtime_manager p) w2)
    as (event & w3 & Hev & Hty & Hu & Hr).
  destruct (truthy (MessageData.room_id data));
    destruct (truthy (MessageData.recipient_id data)); simpl;
    (rewrite Hnotify by done); rewrite Hev; simpl;
    by eexists message, _, w3, event.
Qed.

(** C5 fails on the code: after bob is subscribed to a room and alice
    sends a message to it through the facade, the newest event that
    [get_recent_events] returns to bob is the event of that message in
    that room, and its type is ["message_message_sent"], not
    ["message_sent"]: the message manager passes ["message_sent"] to
    the callback, which puts ["message_"] in front of it. *)
Theorem message_event_type_doubled p w alice bob R data :
  MessageManager.message_callbacks (message_manager p) = [on_message_event] →
  MessageData.sender_id data = Some alice →
  MessageData.room_id data = Some R →
  R ≠ "" →
  ∃ p1 w1 message p2 w2 event events,
    in_realtime_manager (RealtimeManager.subscribe_to_room bob R) (p, w)
    = Ok tt (p1, w1)
    ∧ send_message data (p1, w1) = Ok (Success message) (p2, w2)
    ∧ in_realtime_manager (RealtimeManager.get_recent_events bob 10) (p2, w2)
      = Ok (event :: events) (p2, w2)
    ∧ SocialEvent.event_type event = "message_message_sent"
    ∧ SocialEvent.event_type event ≠ "message_sent"
    ∧ SocialEvent.user_id event = alice
    ∧ SocialEvent.room_id event = Some R.
Proof.
  intros Hcb Hsender Hroom HR.
  destruct (subscribe_to_room_run bob R (realtime_manager p) w)
    as (rt1 & Hsub & Hsubs & _ & _).
  set (p1 := {| user_manager := user_manager p;
                connection_manager := connection_manager p;
                room_manager := room_manager p;
                message_manager := message_manager p;
                realtime_manager := rt1 |}).
  destruct (send_message_run data alice p1 w Hcb Hsender)
    as (message & p2 & w2 & event & Hsend & _ & _ & Hrt & Hty & Hu & Hr).
  assert (Hkeep : RealtimeManager.concerns (realtime_manager p2) bob event = true).
  { unfold RealtimeManager.concerns. rewrite Hr, Hroom. simpl.
    rewrite decide_False by done. rewrite Hrt. simpl. rewrite Hsubs.
    rewrite (bool_decide_eq_true_2 (bob ∈ _)); [|set_solver].
    by rewrite !orb_true_r. }
  destruct (get_recent_events_newest bob 10 event (realtime_manager p2) w2 Hkeep)
    as [events Hget].
  { rewrite Hrt. simpl. by rewrite last_snoc. }
  exists p1, w, message, p2, w2, event, events.
  split; [by unfold in_realtime_manager; cbn [fst snd]; rewrite Hsub|].
  split; [done|].
  split; [unfold in_realtime_manager; cbn [fst snd]; rewrite Hget; by destruct p2|].
  split; [done|]. split; [by rewrite Hty|]. split; [done|by rewrite Hr].
Qed.
End Facts.
End SocialPlatformFacts.

(** ** More on UserManager *)

Module UserExtras.
Import UserManager UserHistory UserInvariants UserManagerFacts.
Section Facts.
Context {W : Type} `{Runtime W}.
Implicit Types (um : UserManager.t W) (w : W).







(** [set_user_status] invokes the presence callbacks only when the
    status changes: on the same status the world changes by the
    reading of the clock alone; on another status every callback is
    invoked once, in order of registration, with the new status. *)
Theorem set_user_status_notifies_changes uid st um w user :
  users um !! uid = Some user →
  ∃ um',
    set_user_status uid st (um, w)
    = Ok true
        (um', if decide (UserProfile.status user = st) then (time_time w).2
              else foldl (fun w cb => cb uid st w) (time_time w).2
                     (presence_callbacks um))
    ∧ users um' !! uid
      = Some (UserProfile.with_last_active (time_time w).1
                (UserProfile.with_status st user))
    ∧ presence_callbacks um' = presence_callbacks um.
Proof.
  intros Hu. unfold set_user_status. run. rewrite Hu. simpl.
  destruct (time_time w) as [t w1]. simpl.
  destruct (decide (UserProfile.status user = st)) as [_|_]; simpl.
  - eexists. split; [done|]. simpl. by rewrite lookup_insert_eq.
  - unfold _notify_presence_change. run. rewrite lookup_insert_eq.
    rewrite (for_each_invoke _ (fun cb => cb uid st)). simpl.
    eexists. split; [done|]. simpl. by rewrite lookup_insert_eq.
Qed.

(** A session that is opened under a fresh identifier and ended again
    leaves the sessions as they were, and cannot be ended twice. *)
Theorem session_round_trip uid um w :
  active_sessions um !! (uuid4 w).1 = None →
  ∃ sid um1 w1 um2 w2,
    create_session uid (um, w) = Ok sid (um1, w1)
    ∧ end_session sid (um1, w1) = Ok true (um2, w2)
    ∧ active_sessions um2 = active_sessions um
    ∧ end_session sid (um2, w2) = Ok false (um2, w2).
Proof.
  intros Hfresh.
  destruct (create_session_run uid um w)
    as (sid & session & um1 & w1 & Hopen & -> & _ & Hsess1 & _).
  destruct (end_session_run (uuid4 w).1 um1 w1 session)
    as (um2 & w2 & Hend & Hsess2 & _).
  { by rewrite Hsess1, lookup_insert_eq. }
  assert (Hback : active_sessions um2 = active_sessions um).
  { by rewrite Hsess2, Hsess1, delete_insert_id. }
  exists (uuid4 w).1, um1, w1, um2, w2. repeat split; try done.
  apply end_session_unknown. by rewrite Hback.
Qed.


End Facts.
End UserExtras.

(** ** More on ConnectionManager *)

Module ConnectionExtras.
Import ConnectionManager ConnectionInvariants ConnectionManagerFacts.
Section Facts.
Context {W : Type} `{Runtime W}.
Implicit Types (cm : ConnectionManager.t) (w : W).

(** [get_connection] finds an edge from [uid] to [target] exactly when
    the index of [uid] lists one: what it returns is such an edge, and
    it returns [None] only when there is none. *)
Theorem get_connection_finds uid target cm w :
  ∃ r,
    get_connection uid target (cm, w) = Ok r (cm, w)
    ∧ (∀ c, r = Some c →
         ∃ cid, lists cm uid cid c ∧ SocialConnection.target_user_id c = target)
    ∧ (r = None →
       ∀ cid c, lists cm uid cid c → SocialConnection.target_user_id c ≠ target).
Proof.
  unfold get_connection. run. eexists. split; [done|].
  unfold get_connection_entry.
  destruct (first_towards _ _ _) as [[cid c]|] eqn:Hf; simpl.
  - split; [|done]. intros c' [= <-].
    apply first_towards_Some in Hf as (Hin & Hc & Ht).
    exists cid. split; [|done]. split; [by apply elem_of_elements in Hin|done].
  - split; [done|]. intros _ cid c [Hin Hc] Ht.
    destruct (first_towards_is_Some (connections cm) target
                (elements (default ∅ (user_connections cm !! uid))) cid c)
      as [x Hx]; [by apply elem_of_elements|done|done|].
    by rewrite Hf in Hx.
Qed.

(** What [get_user_connections] returns: the edges that the index of
    the user lists, of the type asked for when one is asked for. *)
Lemma get_user_connections_run uid ty cm w :
  ∃ l,
    get_user_connections uid ty (cm, w) = Ok l (cm, w)
    ∧ ∀ c, c ∈ l
           ↔ ∃ cid, lists cm uid cid c
                    ∧ ∀ t, ty = Some t → SocialConnection.connection_type c = t.
Proof.
  unfold get_user_connections. run. eexists. split; [done|].
  intros c. rewrite list_elem_of_omap. split.
  - intros (cid & Hin & Hc). apply elem_of_elements in Hin.
    destruct (connections cm !! cid) as [c0|] eqn:Hc0; [|done].
    destruct ty as [t|].
    + destruct (decide (SocialConnection.connection_type c0 = t)) as [Ht|_]; [|done].
      injection Hc as <-. exists cid. split; [done|]. by intros ? [= <-].
    + injection Hc as <-. exists cid. split; [done|]. done.
  - intros (cid & [Hin Hc] & Hty). exists cid. split; [by apply elem_of_elements|].
    rewrite Hc. destruct ty as [t|]; [|done].
    by rewrite decide_True by by apply Hty.
Qed.

Lemma friends_of_run uid cm w :
  ∃ l,
    get_user_connections uid (Some FRIEND) (cm, w) = Ok l (cm, w)
    ∧ ∀ x, x ∈ targets l ↔ friend cm uid x.
Proof.
  destruct (get_user_connections_run uid (Some FRIEND) cm w) as (l & Hrun & Hl).
  exists l. split; [done|]. intros x. unfold targets, friend.
  rewrite elem_of_list_to_set, list_elem_of_fmap. split.
  - intros (c & -> & Hc). apply Hl in Hc as (cid & Hlists & Hty).
    exists cid, c. split; [done|]. split; [by apply Hty|done].
  - intros (cid & c & Hlists & Hty & Ht). exists c. split; [done|].
    apply Hl. exists cid. split; [done|]. by intros ? [= <-].
Qed.

(** [get_mutual_connections] returns, without repetition, exactly the
    users who are friends of both; the two users can be exchanged. *)
Theorem mutual_connections_are_common_friends uid target cm w :
  ∃ l l',
    get_mutual_connections uid target (cm, w) = Ok l (cm, w)
    ∧ get_mutual_connections target uid (cm, w) = Ok l' (cm, w)
    ∧ NoDup l
    ∧ (∀ x, x ∈ l ↔ friend cm uid x ∧ friend cm target x)
    ∧ l ≡ₚ l'.
Proof.
  destruct (friends_of_run uid cm w) as (lu & Hu & Hlu).
  destruct (friends_of_run target cm w) as (lt & Ht & Hlt).
  unfold get_mutual_connections. unfold bind.
  rewrite Hu, Ht, Hu. simpl. eexists _, _. split; [done|]. split; [done|].
  split; [apply NoDup_elements|]. split.
  - intros x. by rewrite elem_of_elements, elem_of_intersection, Hlu, Hlt.
  - by rewrite (comm_L (∩) (targets lu)).
Qed.

(** [update_connection_strength] stores a strength between 0 and 1,
    the one it is given when that lies between 0 and 1, and changes
    nothing else of the connection; on an unknown identifier it
    returns [False] and changes nothing. *)
Theorem strength_is_clamped cid strength cm w :
  match connections cm !! cid with
  | None => update_connection_strength cid strength (cm, w) = Ok false (cm, w)
  | Some c =>
    ∃ q,
      update_connection_strength cid strength (cm, w)
      = Ok true (with_connections (insert cid (with_strength q c)) cm, w)
      ∧ (0 <= q)%Q ∧ (q <= 1)%Q
      ∧ ((0 <= strength)%Q → (strength <= 1)%Q → (q == strength)%Q)
  end.
Proof.
  unfold update_connection_strength. run.
  destruct (connections cm !! cid) as [c|]; [|done]. simpl.
  eexists. split; [done|]. unfold py_max, py_min.
  destruct (Qlt_le_dec strength 1) as [Hlt|Hge];
    destruct (Qlt_le_dec 0 _) as [Hpos|Hneg].
  - repeat split; try done; [by apply Qlt_le_weak|by apply Qlt_le_weak].
  - repeat split; try done. intros Hs _. by apply Qle_antisym.
  - repeat split; try done. intros _ Hs. by apply Qle_antisym.
  - by destruct (Qlt_not_le 0 1).
Qed.

(** [remove_connection] takes a stored edge out of the store and out of
    the index of its source, so that [get_connection] never returns it
    again; the other edges stay, and a second removal is refused. *)
Theorem remove_connection_removes cid cm w c :
  connections cm !! cid = Some c →
  ∃ cm',
    remove_connection cid (cm, w) = Ok true (cm', w)
    ∧ connections cm' = delete cid (connections cm)
    ∧ (cid ∉ default ∅ (user_connections cm' !! SocialConnection.user_id c))
    ∧ (∀ uid target, fst <$> get_connection_entry cm' uid target ≠ Some cid)
    ∧ remove_connection cid (cm', w) = Ok false (cm', w).
Proof.
  intros Hc. unfold remove_connection. run. rewrite Hc. simpl.
  eexists. split; [done|]. simpl. split; [done|]. split.
  - rewrite lookup_alter_eq.
    destruct (user_connections cm !! SocialConnection.user_id c); simpl;
      [|apply not_elem_of_empty].
    rewrite elem_of_difference, elem_of_singleton. by intros [_ ?].
  - split; [|by rewrite lookup_delete_eq].
    intros uid target Hentry. unfold get_connection_entry in Hentry. simpl in Hentry.
    destruct (first_towards _ _ _) as [[k e]|] eqn:Hf; [|done].
    injection Hentry as ->.
    apply first_towards_Some in Hf as (_ & Hk & _).
    by rewrite lookup_delete_eq in Hk.
Qed.

(** A loop whose body returns a value and leaves the state alone *)
Lemma for_fold_pure {S A B} (l : list A) (body : B → A → M S B) (g : B → A → B)
    (s : S) :
  (∀ acc x, body acc x s = Ok (g acc x) s) →
  ∀ acc, for_fold l body acc s = Ok (foldl g acc l) s.
Proof.
  intros Hbody. induction l as [|x l IH]; intros acc; simpl; [done|].
  unfold bind. rewrite Hbody. apply IH.
Qed.

(** The inner loop of [suggest_connections] adds the targets that are
    neither the user nor a friend, once each. *)
Lemma add_suggestions_spec uid (user_friends : gset string) friend_connections
    suggestions :
  NoDup suggestions →
  NoDup (add_suggestions uid user_friends suggestions friend_connections)
  ∧ ∀ x, x ∈ add_suggestions uid user_friends suggestions friend_connections
         ↔ x ∈ suggestions
           ∨ (x ≠ uid ∧ (x ∉ user_friends) ∧ x ∈ targets friend_connections).
Proof.
  unfold add_suggestions, targets.
  revert suggestions. induction friend_connections as [|c l IH]; intros sugg Hnd; simpl.
  - split; [done|]. intros x. split; [by left|]. intros [?|(_ & _ & Hx)]; [done|].
    by apply not_elem_of_empty in Hx.
  - set (p := SocialConnection.target_user_id c).
    destruct (decide (p ≠ uid ∧ p ∉ user_friends)) as [[Hp1 Hp2]|Hskip].
    + destruct (decide (p ∈ sugg)) as [Hin|Hout].
      * destruct (IH sugg Hnd) as [Hnd' Hmem]. split; [done|]. intros x.
        rewrite Hmem, elem_of_union, elem_of_singleton. split.
        -- intros [?|(? & ? & ?)]; [by left|right; by repeat split; try right].
        -- intros [? | (? & ? & [-> | ?])]; [by left|by left|by right].
      * destruct (IH (sugg ++ [p])) as [Hnd' Hmem].
        { apply NoDup_app. split; [done|]. split; [|apply NoDup_singleton].
          intros x Hx Hxp. apply list_elem_of_singleton in Hxp as ->. done. }
        split; [done|]. intros x.
        rewrite Hmem, elem_of_app, list_elem_of_singleton, elem_of_union,
          elem_of_singleton.
        split.
        -- intros [[? | ->] | (? & ? & ?)];
             [by left|right; repeat split; try done; by left
             |right; repeat split; try done; by right].
        -- intros [? | (? & ? & [-> | ?])];
             [by left; left|by left; right|by right].
    + destruct (IH sugg Hnd) as [Hnd' Hmem]. split; [done|]. intros x.
      rewrite Hmem, elem_of_union, elem_of_singleton. split.
      * intros [?|(? & ? & ?)]; [by left|right; by repeat split; try right].
      * intros [? | (Hx1 & Hx2 & [-> | ?])]; [by left| |by right].
        destruct Hskip. by split.
Qed.

(** [suggest_connections] returns a slice of the list of the friends of
    friends: that list holds, once each, exactly the users who are a
    friend of a friend of the user without being the user or a friend
    of the user.  The slice holds at most [limit] of them when [limit]
    is not negative, and all but the last [-limit] when it is. *)
Theorem suggestions_are_friends_of_friends uid limit cm w :
  ∃ all,
    suggest_connections uid limit (cm, w) = Ok (slice_to limit all) (cm, w)
    ∧ NoDup all
    ∧ (∀ x, x ∈ all
            ↔ x ≠ uid ∧ ¬ friend cm uid x ∧ ∃ f, friend cm uid f ∧ friend cm f x)
    ∧ slice_to limit all `sublist_of` all
    ∧ ((0 ≤ limit)%Z → (Z.of_nat (length (slice_to limit all)) ≤ limit)%Z)
    ∧ ((limit < 0)%Z →
       length (slice_to limit all) = Z.to_nat (Z.of_nat (length all) + limit)).
Proof.
  destruct (friends_of_run uid cm w) as (lu & Hu & Hlu).
  set (conns := fun f =>
         match get_user_connections f (Some FRIEND) (cm, w) with
         | Ok l _ => l
         | _ => []
         end).
  assert (Hconns : ∀ f, get_user_connections f (Some FRIEND) (cm, w)
                        = Ok (conns f) (cm, w)
                        ∧ ∀ x, x ∈ targets (conns f) ↔ friend cm f x).
  { intros f. destruct (friends_of_run f cm w) as (lf & Hf & Hlf).
    unfold conns. by rewrite Hf. }
  unfold suggest_connections. unfold bind at 1. rewrite Hu.
  unfold bind at 1.
  rewrite (for_fold_pure _ _
             (fun suggestions f => add_suggestions uid (targets lu) suggestions (conns f))).
  2:{ intros acc f. unfold bind. by rewrite (proj1 (Hconns f)). }
  unfold ret. eexists. split; [done|].
  assert (Hloop : ∀ (friends : list string) acc,
            NoDup acc →
            NoDup (foldl (fun suggestions f =>
                            add_suggestions uid (targets lu) suggestions (conns f))
                     acc friends)
            ∧ ∀ x, x ∈ foldl (fun suggestions f =>
                                add_suggestions uid (targets lu) suggestions (conns f))
                         acc friends
                   ↔ x ∈ acc
                     ∨ (x ≠ uid ∧ (x ∉ targets lu)
                        ∧ ∃ f, f ∈ friends ∧ x ∈ targets (conns f))).
  { induction friends as [|f friends IH]; intros acc Hnd; simpl.
    - split; [done|]. intros x. split; [by left|].
      intros [?|(_ & _ & f & Hf & _)]; [done|]. by apply elem_of_nil in Hf.
    - destruct (add_suggestions_spec uid (targets lu) (conns f) acc Hnd) as [Hnd1 Hm1].
      destruct (IH _ Hnd1) as [Hnd2 Hm2]. split; [done|]. intros x.
      rewrite Hm2, Hm1. split.
      + intros [[?|(? & ? & ?)]|(? & ? & f' & ? & ?)].
        * by left.
        * right. repeat split; try done. exists f. split; [left|done].
        * right. repeat split; try done. exists f'. split; [by right|done].
      + intros [?|(? & ? & f' & Hf' & ?)]; [by left; left|].
        apply elem_of_cons in Hf' as [->|Hf'].
        * left. by right.
        * right. repeat split; try done. by exists f'. }
  destruct (Hloop (elements (targets lu)) [] (NoDup_nil_2)) as [Hnd Hmem].
  split; [done|]. split.
  - intros x. rewrite Hmem, Hlu. split.
    + intros [Hx|(? & ? & f & Hf & Hxf)]; [by apply elem_of_nil in Hx|].
      repeat split; try done. exists f.
      apply elem_of_elements, Hlu in Hf. split; [done|]. by apply (Hconns f).
    + intros (? & ? & f & Hf & Hxf). right. repeat split; try done.
      exists f. split; [by apply elem_of_elements, Hlu|]. by apply (Hconns f).
  - unfold slice_to. destruct (decide (0 ≤ limit)%Z) as [Hpos|Hneg].
    + split; [apply sublist_take|]. split; [|lia].
      intros _. rewrite length_take. lia.
    + split; [apply sublist_take|]. split; [lia|].
      intros _. rewrite length_take. lia.
Qed.

(** The fields of the edge that [create_connection] returns *)
Lemma create_connection_fields uid target ty cm w c s' :
  create_connection uid target ty (cm, w) = Ok c s' →
  SocialConnection.connection_id c = (uuid4 w).1
  ∧ SocialConnection.user_id c = uid
  ∧ SocialConnection.target_user_id c = target
  ∧ SocialConnection.connection_type c = ty.
Proof.
  unfold create_connection. run.
  destruct (uuid4 w) as [cid w1]. simpl.
  destruct (time_time w1) as [t w2]. simpl.
  destruct (get_connection_entry cm target uid) as [[rid r]|]; simpl.
  - destruct (decide (SocialConnection.connection_type r = ty)); simpl;
      destruct (user_connections cm !! uid); simpl; by intros [= <- <-].
  - destruct (user_connections cm !! uid); simpl; by intros [= <- <-].
Qed.

(** The index of a user after an identifier is added to it *)
Lemma index_add_lookup cid uid (index : gmap string (gset string)) x :
  default ∅ (alter (fun ids => {[cid]} ∪ ids) uid
               match index !! uid with
               | None => <[uid := ∅]> index
               | Some _ => index
               end !! x)
  = if decide (x = uid) then {[cid]} ∪ default ∅ (index !! uid)
    else default ∅ (index !! x).
Proof.
  destruct (decide (x = uid)) as [->|Hne].
  - rewrite lookup_alter_eq. destruct (index !! uid) as [ids|] eqn:Hi.
    + by rewrite Hi.
    + by rewrite lookup_insert_eq.
  - rewrite lookup_alter_ne by done. destruct (index !! uid); [done|].
    by rewrite lookup_insert_ne.
Qed.

(** One call, under a fresh identifier, keeps store and index in
    agreement. *)
Lemma well_indexed_step o cm w cm' w' :
  well_indexed cm → fresh_id o (cm, w) →
  after (perform o (cm, w)) = Some (cm', w') →
  well_indexed cm'.
Proof.
  intros [Hstore Hindex] Hfresh Hstep.
  destruct o as [uid target ty|cid q|cid]; unfold perform, bind in Hstep.
  - (* create_connection *)
    simpl in Hfresh.
    destruct (create_connection_run uid target ty cm w)
      as (c & cm2 & w2 & Hrun & _ & Hconns & Hidx).
    destruct (create_connection_fields uid target ty cm w c _ Hrun)
      as (Hcid & Huid & _).
    rewrite Hrun in Hstep. simpl in Hstep. injection Hstep as <- <-.
    set (new := (uuid4 w).1) in *.
    set (base := match ConnectionHistory.detected cm uid target ty with
                 | Some rid => alter (SocialConnection.with_mutual true) rid (connections cm)
                 | None => connections cm
                 end) in *.
    assert (Hbase : ∀ k e',
              base !! k = Some e' →
              ∃ e, connections cm !! k = Some e
                   ∧ SocialConnection.connection_id e' = SocialConnection.connection_id e
                   ∧ SocialConnection.user_id e' = SocialConnection.user_id e).
    { intros k e' He'. subst base.
      destruct (ConnectionHistory.detected cm uid target ty) as [rid|]; [|by exists e'].
      destruct (decide (k = rid)) as [->|Hne].
      - rewrite lookup_alter_eq in He'.
        destruct (connections cm !! rid) as [e|]; [|done].
        injection He' as <-. by exists e.
      - rewrite lookup_alter_ne in He' by done. by exists e'. }
    assert (Hbase' : ∀ k e,
              connections cm !! k = Some e → ∃ e', base !! k = Some e'
                   ∧ SocialConnection.user_id e' = SocialConnection.user_id e).
    { intros k e He. subst base.
      destruct (ConnectionHistory.detected cm uid target ty) as [rid|]; [|by exists e].
      destruct (decide (k = rid)) as [->|Hne].
      - rewrite lookup_alter_eq, He. by eexists.
      - rewrite lookup_alter_ne by done. by exists e. }
    split.
    + intros k e Hk. rewrite Hconns in Hk. rewrite Hidx, index_add_lookup.
      destruct (decide (k = new)) as [->|Hne].
      * rewrite lookup_insert_eq in Hk. injection Hk as <-. split; [done|].
        rewrite Huid, decide_True by done. apply elem_of_union_l. by apply elem_of_singleton.
      * rewrite lookup_insert_ne in Hk by done.
        destruct (Hbase k e Hk) as (e0 & He0 & Hid & Hu).
        destruct (Hstore k e0 He0) as [Hid0 Hin0]. split; [congruence|].
        rewrite Hu. destruct (decide _) as [Heq|_]; [|done].
        apply elem_of_union_r. by rewrite <- Heq.
    + intros u k Hk. rewrite Hidx, index_add_lookup in Hk. rewrite Hconns.
      destruct (decide (k = new)) as [->|Hne].
      * rewrite lookup_insert_eq. exists c. split; [done|].
        destruct (decide (u = uid)) as [->|Hu]; [done|].
        destruct (Hindex u new Hk) as (e & He & _). by rewrite Hfresh in He.
      * rewrite lookup_insert_ne by done.
        assert (Hk0 : k ∈ default ∅ (user_connections cm !! u)).
        { destruct (decide (u = uid)) as [->|Hu]; [|done].
          apply elem_of_union in Hk as [Hk|Hk]; [|done].
          by apply elem_of_singleton in Hk. }
        destruct (Hindex u k Hk0) as (e & He & Hu).
        destruct (Hbase' k e He) as (e' & He' & Hu').
        exists e'. split; [done|]. congruence.
  - (* update_connection_strength *)
    unfold update_connection_strength, bind, ret, self, update_self in Hstep.
    simpl in Hstep.
    destruct (connections cm !! cid) as [c|] eqn:Hc; simpl in Hstep;
      injection Hstep as <- <-; [|done].
    split.
    + intros k e Hk. simpl in *.
      destruct (decide (k = cid)) as [->|Hne].
      * rewrite lookup_insert_eq in Hk. injection Hk as <-. simpl. by apply Hstore.
      * rewrite lookup_insert_ne in Hk by done. by apply Hstore.
    + intros u k Hk. simpl in *. destruct (Hindex u k Hk) as (e & He & Hu).
      destruct (decide (k = cid)) as [->|Hne].
      * rewrite lookup_insert_eq. eexists. split; [done|]. simpl. congruence.
      * rewrite lookup_insert_ne by done. by exists e.
  - (* remove_connection *)
    unfold remove_connection, bind, ret, self, update_self in Hstep.
    simpl in Hstep.
    destruct (connections cm !! cid) as [c|] eqn:Hc; simpl in Hstep;
      injection Hstep as <- <-; [|done].
    split.
    + intros k e Hk. simpl in *. apply lookup_delete_Some in Hk as [Hne Hk].
      destruct (Hstore k e Hk) as [Hid Hin]. split; [done|].
      destruct (decide (SocialConnection.user_id e = SocialConnection.user_id c))
        as [Heq|Hu].
      * rewrite Heq, lookup_alter_eq. rewrite Heq in Hin.
        destruct (user_connections cm !! SocialConnection.user_id c); simpl in *;
          [|done].
        apply elem_of_difference. split; [done|]. by rewrite elem_of_singleton.
      * by rewrite lookup_alter_ne.
    + intros u k Hk. simpl in *.
      assert (Hk0 : k ∈ default ∅ (user_connections cm !! u) ∧ k ≠ cid).
      { destruct (decide (u = SocialConnection.user_id c)) as [->|Hu].
        - rewrite lookup_alter_eq in Hk.
          destruct (user_connections cm !! SocialConnection.user_id c); simpl in *.
          + apply elem_of_difference in Hk as [? Hk]. by rewrite elem_of_singleton in Hk.
          + by apply not_elem_of_empty in Hk.
        - rewrite lookup_alter_ne in Hk by done. split; [done|]. intros ->.
          destruct (Hindex u cid Hk) as (e & He & He'). congruence. }
      destruct Hk0 as [Hk0 Hne]. destruct (Hindex u k Hk0) as (e & He & Hu).
      exists e. split; [|done]. by rewrite lookup_delete_ne.
Qed.

(** In every state that [create_connection] (under fresh identifiers),
    [update_connection_strength] and [remove_connection] reach from an
    empty manager, store and index agree, so that
    [get_user_connections] returns exactly the stored edges whose
    source is the user. *)
Theorem store_and_index_agree (s : ConnectionManager.t * W) :
  reachable s →
  well_indexed (fst s)
  ∧ ∀ uid, ∃ l,
      get_user_connections uid None s = Ok l s
      ∧ ∀ c, c ∈ l
             ↔ (∃ cid, connections (fst s) !! cid = Some c)
               ∧ SocialConnection.user_id c = uid.
Proof.
  intros Hreach.
  assert (Hwf : well_indexed (fst s)).
  { induction Hreach as [w|[cm w] o [cm' w'] _ IH Hfresh Hstep].
    - split; [by intros cid c Hc|]. intros u k Hk. simpl in Hk.
      rewrite lookup_empty in Hk. by apply not_elem_of_empty in Hk.
    - by eapply well_indexed_step. }
  split; [done|]. destruct s as [cm w]. destruct Hwf as [Hstore Hindex]. intros uid.
  destruct (get_user_connections_run uid None cm w) as (l & Hrun & Hl).
  exists l. split; [done|]. intros c. rewrite Hl. split.
  - intros (cid & [Hin Hc] & _). split; [by exists cid|].
    destruct (Hindex uid cid Hin) as (e & He & Hu). simpl in *. congruence.
  - intros [[cid Hc] Hu]. exists cid. split; [|done]. split; [|done].
    destruct (Hstore cid c Hc) as [_ Hin]. by rewrite Hu in Hin.
Qed.
End Facts.
End ConnectionExtras.

(** ** The properties on concrete states *)

Module RoomExamples.
Import RoomManager RoomHistory RoomManagerFacts RoomHistoryFacts Examples.



(** alice is the only member of the temporary room T: deleting the room
    raises. *)
Lemma delete_room_temporary_raises_witness :
  ∃ rm' w',
    delete_room 3 "T" (fst temporary_room, snd temporary_room)
    = Raise (KeyError "T") (rm', w')
    ∧ rooms rm' !! "T" = None.
Proof.
  eapply (delete_room_temporary_raises 0 "T").
  - vm_compute. reflexivity.
  - reflexivity.
  - intros Hempty.
    assert (Hin : "alice" ∈ (∅ : gset string)).
    { rewrite <- Hempty. vm_compute. reflexivity. }
    by apply not_elem_of_empty in Hin.
Defined.

(** alice leaves the temporary room T, of which she is the only member:
    the room is gone. *)
Lemma leave_room_temporary_witness :
  ∃ rm' w',
    leave_room 2 "T" "alice" (fst temporary_room, snd temporary_room)
    = Ok true (rm', w')
    ∧ get_room "T" (rm', w') = Ok None (rm', w').
Proof.
  edestruct (leave_room_temporary 0 "T" "alice" (fst temporary_room) (snd temporary_room))
    as (rm' & w' & Hrun & Hgone & _).
  - vm_compute. reflexivity.
  - vm_compute. reflexivity.
  - exists rm', w'. split; [exact Hrun|]. apply Hgone.
    + reflexivity.
    + apply set_eq. intros x. vm_compute. split; [|done]. by destruct x.
Defined.
End RoomExamples.

Module MessageExamples.
Import MessageManager MessageManagerFacts Examples.

(** bob can neither edit nor delete the message of alice. *)
Lemma foreign_edit_delete_rejected_witness :
  edit_message "uuid-0" "x" "bob" (fst one_message, snd one_message)
  = Ok false (fst one_message, snd one_message)
  ∧ delete_message "uuid-0" "bob" (fst one_message, snd one_message)
    = Ok false (fst one_message, snd one_message).
Proof.
  eapply (foreign_edit_delete_rejected (fst one_message) (snd one_message) "uuid-0").
  - vm_compute. reflexivity.
  - simpl. discriminate.
Defined.

(** bob reacts to the message of alice and takes the reaction back. *)
Lemma add_then_remove_reaction_witness :
  ∃ mm1 w1 mm2 w2 message2,
    add_reaction "uuid-0" "bob" "+1" (fst one_message, snd one_message)
    = Ok true (mm1, w1)
    ∧ remove_reaction "uuid-0" "bob" "+1" (mm1, w1) = Ok true (mm2, w2)
    ∧ messages mm2 !! "uuid-0" = Some message2
    ∧ Message.reactions message2 !! "+1" = None.
Proof.
  edestruct (fun message =>
               add_then_remove_reaction (fst one_message) (snd one_message)
                 "uuid-0" message "bob" "+1")
    as (mm1 & w1 & mm2 & w2 & message2 & Hadd & Hrem & Hm & Hnone & _).
  - vm_compute. reflexivity.
  - intros l Hl. vm_compute in Hl. discriminate Hl.
  - by exists mm1, w1, mm2, w2, message2.
Defined.
End MessageExamples.

Module PlatformExamples.
Import SocialPlatform SocialPlatformFacts Examples.

(** On a new platform, bob subscribes to the room R and alice sends a
    message to it: bob gets one event, of type ["message_message_sent"]. *)
Lemma message_event_type_doubled_witness :
  ∃ p1 w1 message p2 w2 event events,
    in_realtime_manager (RealtimeManager.subscribe_to_room "bob" "R") platform_start
    = Ok tt (p1, w1)
    ∧ send_message (message_data "alice" "R" "Welcome!") (p1, w1)
      = Ok (Success message) (p2, w2)
    ∧ in_realtime_manager (RealtimeManager.get_recent_events "bob" 10) (p2, w2)
      = Ok (event :: events) (p2, w2)
    ∧ SocialEvent.event_type event = "message_message_sent"
    ∧ SocialEvent.event_type event ≠ "message_sent"
    ∧ SocialEvent.user_id event = "alice"
    ∧ SocialEvent.room_id event = Some "R".
Proof.
  apply (message_event_type_doubled (fst platform_start) (snd platform_start)
           "alice" "bob" "R" (message_data "alice" "R" "Welcome!")).
  - reflexivity.
  - reflexivity.
  - reflexivity.
  - discriminate.
Defined.

(** The same scenario, evaluated: the events that bob gets are that one
    event, and none of them has the type ["message_sent"]. *)
Lemma message_sent_event_missing :
  ∃ events s,
    (in_realtime_manager (RealtimeManager.subscribe_to_room "bob" "R") ;;
     send_message (message_data "alice" "R" "Welcome!") ;;
     in_realtime_manager (RealtimeManager.get_recent_events "bob" 10)) platform_start
    = Ok events s
    ∧ SocialEvent.event_type <$> events = ["message_message_sent"]
    ∧ SocialEvent.room_id <$> events = [Some "R"]
    ∧ Forall (fun event => SocialEvent.event_type event ≠ "message_sent") events.
Proof.
  eexists _, _. split; [vm_compute; reflexivity|].
  split; [reflexivity|]. split; [reflexivity|].
  apply Forall_cons. split; [discriminate|apply Forall_nil_2].
Qed.
End PlatformExamples.

(** ** The further properties on concrete states *)

Module UserExtraExamples.
Import UserManager UserHistory UserInvariants UserExtras UserHistoryFacts Examples.


(** alice, who is online, sets her status to away. *)
Lemma set_user_status_notifies_changes_witness :
  ∃ um' w', set_user_status "alice" AWAY (fst alice_once, snd alice_once)
            = Ok true (um', w').
Proof.
  edestruct (set_user_status_notifies_changes "alice" AWAY
               (fst alice_once) (snd alice_once))
    as (um' & Hrun & _).
  - vm_compute. reflexivity.
  - eexists um', _. exact Hrun.
Defined.

(** alice logs in a second time and out again. *)
Lemma session_round_trip_witness :
  ∃ sid um1 w1 um2 w2,
    create_session "alice" (fst alice_once, snd alice_once) = Ok sid (um1, w1)
    ∧ end_session sid (um1, w1) = Ok true (um2, w2)
    ∧ active_sessions um2 = active_sessions (fst alice_once).
Proof.
  destruct (session_round_trip "alice" (fst alice_once) (snd alice_once))
    as (sid & um1 & w1 & um2 & w2 & Hopen & Hend & Hback & _).
  - vm_compute. reflexivity.
  - by exists sid, um1, w1, um2, w2.
Defined.

End UserExtraExamples.

Module ConnectionExtraExamples.
Import ConnectionManager ConnectionInvariants ConnectionExtras Examples.

(** bob removes his connection to alice. *)
Lemma remove_connection_removes_witness :
  ∃ cm',
    remove_connection "uuid-0" (fst bob_once, snd bob_once) = Ok true (cm', snd bob_once)
    ∧ connections cm' !! "uuid-0" = None.
Proof.
  edestruct (remove_connection_removes "uuid-0" (fst bob_once) (snd bob_once))
    as (cm' & Hrun & Hconns & _).
  - vm_compute. reflexivity.
  - exists cm'. split; [exact Hrun|]. by rewrite Hconns, lookup_delete_eq.
Defined.
End ConnectionExtraExamples.

Module RoomExtraExamples.
Import RoomManager RoomManagerFacts Examples.

End RoomExtraExamples.

Module ConnectionMoreExamples.
Import ConnectionManager ConnectionInvariants ConnectionExtras Examples.

(** The state in which bob has two connections to alice is reachable. *)
Lemma store_and_index_agree_witness :
  reachable bob_twice ∧ well_indexed (fst bob_twice).
Proof.
  assert (Hreach : reachable bob_twice).
  { apply (reachable_step bob_once (Create "bob" "alice" FOLLOWER)).
    - apply (reachable_step connections_start (Create "bob" "alice" FRIEND)).
      + apply reachable_init.
      + vm_compute. reflexivity.
      + vm_compute. reflexivity.
    - vm_compute. reflexivity.
    - vm_compute. reflexivity. }
  split; [exact Hreach|]. exact (proj1 (store_and_index_agree bob_twice Hreach)).
Defined.
End ConnectionMoreExamples.
